(** * Content-based file-type detection and download pipeline

    Shallow embedding of [Code/get_investments_data.py] (the general
    profile) and [Code/get_other_controls.py] (the spreadsheet-only
    profile): the metadata classifier, the signature classifier, the
    filename sanitizer and [download_file], with theorems about them. *)

From Stdlib Require Import NArith List Bool Lia.
From Stdlib Require Import Strings.Byte Strings.Ascii.
From stdpp Require Import strings gmap.

Local Open Scope N_scope.

(** ** Python values

    A [bytes] object is a list of bytes; a [str] is a list of Unicode code
    points. *)

Abbreviation bytes := (list byte).
Abbreviation str := (list N).

(** A [str] literal of the source (ASCII only). *)
Definition u (s : string) : str :=
  map N_of_ascii (String.list_ascii_of_string s).

(** A [bytes] literal of the source written with printable characters. *)
Definition b (s : string) : bytes := String.list_byte_of_string s.

#[global] Instance byte_eq_dec : EqDecision byte := Byte.byte_eq_dec.

(** ** Exceptions and results *)

Inductive exn : Type :=
  | Timeout               (* requests.exceptions.Timeout *)
  | ConnectionError       (* requests.exceptions.ConnectionError *)
  | HTTPError             (* requests.exceptions.HTTPError *)
  | ChunkedEncodingError  (* requests.exceptions.ChunkedEncodingError *)
  | UnicodeDecodeError
  | UnboundLocalError
  | OSError.

(** [isinstance(e, requests.exceptions.RequestException)] *)
Definition is_RequestException (e : exn) : bool :=
  match e with
  | Timeout | ConnectionError | HTTPError | ChunkedEncodingError => true
  | UnicodeDecodeError | UnboundLocalError | OSError => false
  end.

(** [isinstance(e, Exception)] *)
Definition is_Exception (e : exn) : bool :=
  match e with
  | Timeout | ConnectionError | HTTPError | ChunkedEncodingError
  | UnicodeDecodeError | UnboundLocalError | OSError => true
  end.

Inductive result (A : Type) : Type :=
  | Return (a : A)
  | Raise (e : exn).
Arguments Return {A} a.
Arguments Raise {A} e.

Definition rbind {A B} (r : result A) (k : A -> result B) : result B :=
  match r with
  | Return a => k a
  | Raise e => Raise e
  end.

(** ** Sequence operations shared by [bytes] and [str] *)

Section Sequences.
Context {A : Type} `{EqDecision A}.

(** [s.startswith(p)] *)
Fixpoint startswith (s p : list A) {struct p} : bool :=
  match p, s with
  | [], _ => true
  | _ :: _, [] => false
  | x :: p', y :: s' => bool_decide (y = x) && startswith s' p'
  end.

(** [sub in s] *)
Fixpoint contains (sub s : list A) : bool :=
  startswith s sub ||
  match s with
  | [] => false
  | _ :: s' => contains sub s'
  end.

Fixpoint drop_while (p : A -> bool) (s : list A) : list A :=
  match s with
  | [] => []
  | c :: s' => if p c then drop_while p s' else s
  end.

(** [s.lstrip(chars)], [s.rstrip(chars)] and [s.strip(chars)], the set
    of characters given as a predicate. *)
Definition lstrip_with (p : A -> bool) (s : list A) : list A :=
  drop_while p s.
Definition rstrip_with (p : A -> bool) (s : list A) : list A :=
  rev (drop_while p (rev s)).
Definition strip_with (p : A -> bool) (s : list A) : list A :=
  rstrip_with p (lstrip_with p s).

(** [s.split(sep)[0]] for a one-character separator: the part of [s]
    before the first [sep], all of [s] when there is none. *)
Fixpoint split_first (sep : A) (s : list A) : list A :=
  match s with
  | [] => []
  | c :: s' => if bool_decide (c = sep) then [] else c :: split_first sep s'
  end.

(** [s.replace(old, new)] for one-character [old] and [new]. *)
Definition replace (old new : A) (s : list A) : list A :=
  map (fun c => if bool_decide (c = old) then new else c) s.

(** *** Dictionaries

    A [dict] keeps its keys in insertion order; storing under a key that
    is present replaces the value and keeps the key's position. A dict
    display [{k1: v1, k2: v2, ...}] stores its items from left to
    right. *)
Context {V : Type}.

Fixpoint dict_set (d : list (list A * V)) (k : list A) (v : V)
  : list (list A * V) :=
  match d with
  | [] => [(k, v)]
  | (k', v') :: d' =>
      if bool_decide (k' = k) then (k', v) :: d'
      else (k', v') :: dict_set d' k v
  end.

Definition dict_display (items : list (list A * V)) : list (list A * V) :=
  fold_left (fun d kv => dict_set d (fst kv) (snd kv)) items [].

(** [d.get(k, default)] *)
Fixpoint dict_get (d : list (list A * V)) (k : list A) (default : V) : V :=
  match d with
  | [] => default
  | (k', v') :: d' =>
      if bool_decide (k' = k) then v' else dict_get d' k default
  end.
End Sequences.

(** ** [str] methods of the interpreter *)

(** [c.isspace()] for one code point: the characters [str.strip()] removes
    when called without argument. *)
Definition isspace (c : N) : bool :=
  ((0x09 <=? c) && (c <=? 0x0D)) || ((0x1C <=? c) && (c <=? 0x20))
  || (c =? 0x85) || (c =? 0xA0) || (c =? 0x1680)
  || ((0x2000 <=? c) && (c <=? 0x200A))
  || (c =? 0x2028) || (c =? 0x2029) || (c =? 0x202F) || (c =? 0x205F)
  || (c =? 0x3000).

(** [s.strip()] *)
Definition strip (s : str) : str := strip_with isspace s.

(** Lower-casing of an ASCII code point. *)
Definition ascii_lower (c : N) : N :=
  if (0x41 <=? c) && (c <=? 0x5A) then c + 0x20 else c.

Section Lower.
(** The interpreter's full lower-case mapping of a code point outside
    ASCII, which may yield several code points and may look at the
    characters before and after it (the final-sigma rule). The table is
    not part of the program; it is taken as a parameter. *)
Variable unicode_lower : str -> N -> str -> str.

Fixpoint lower_from (before s : str) : str :=
  match s with
  | [] => []
  | c :: rest =>
      (if c <? 0x80 then [ascii_lower c] else unicode_lower before c rest)
      ++ lower_from (before ++ [c]) rest
  end.

(** [s.lower()] *)
Definition lower (s : str) : str := lower_from [] s.
End Lower.

(** ** [bytes.decode('utf-8', errors=...)] *)

Inductive error_handler : Type := strict | ignore.

Definition is_continuation_byte (c : N) : bool := (0x80 <=? c) && (c <? 0xC0).

Definition rcons {A} (x : A) (r : result (list A)) : result (list A) :=
  rbind r (fun l => Return (x :: l)).

Section Utf8.
Variable errors : error_handler.

(** What the decoder does at an undecodable sequence: [strict] raises,
    [ignore] resumes after the bytes of the sequence, whose decoded
    continuation is [resume]. *)
Definition on_error (resume : result str) : result str :=
  match errors with
  | strict => Raise UnicodeDecodeError
  | ignore => resume
  end.

(** The decoder reads one sequence at a time. An invalid start byte is
    an error of one byte; a sequence broken at its second, third or
    fourth byte is an error of the bytes before the offending one; a
    sequence cut short by the end of the data is an error reaching to
    the end. Over-long forms, surrogates and code points above
    [0x10FFFF] are rejected at the second byte. *)
Fixpoint utf8_decode (s : bytes) : result str :=
  match s with
  | [] => Return []
  | b0 :: s1 =>
    let ch := Byte.to_N b0 in
    if ch <? 0x80 then rcons ch (utf8_decode s1)
    else if ch <? 0xC2 then on_error (utf8_decode s1)
    else if ch <? 0xE0 then
      match s1 with
      | [] => on_error (Return [])
      | b1 :: s2 =>
        let ch2 := Byte.to_N b1 in
        if negb (is_continuation_byte ch2) then on_error (utf8_decode s1)
        else rcons (ch * 0x40 + ch2 - (0xC0 * 0x40 + 0x80)) (utf8_decode s2)
      end
    else if ch <? 0xF0 then
      match s1 with
      | [] => on_error (Return [])
      | b1 :: s2 =>
        let ch2 := Byte.to_N b1 in
        if negb (is_continuation_byte ch2)
           || (if ch2 <? 0xA0 then ch =? 0xE0 else ch =? 0xED)
        then on_error (utf8_decode s1)
        else
          match s2 with
          | [] => on_error (Return [])
          | b2 :: s3 =>
            let ch3 := Byte.to_N b2 in
            if negb (is_continuation_byte ch3) then on_error (utf8_decode s2)
            else rcons (ch * 0x1000 + ch2 * 0x40 + ch3
                        - (0xE0 * 0x1000 + 0x80 * 0x40 + 0x80))
                       (utf8_decode s3)
          end
      end
    else if ch <? 0xF5 then
      match s1 with
      | [] => on_error (Return [])
      | b1 :: s2 =>
        let ch2 := Byte.to_N b1 in
        if negb (is_continuation_byte ch2)
           || (if ch2 <? 0x90 then ch =? 0xF0 else ch =? 0xF4)
        then on_error (utf8_decode s1)
        else
          match s2 with
          | [] => on_error (Return [])
          | b2 :: s3 =>
            let ch3 := Byte.to_N b2 in
            if negb (is_continuation_byte ch3) then on_error (utf8_decode s2)
            else
              match s3 with
              | [] => on_error (Return [])
              | b3 :: s4 =>
                let ch4 := Byte.to_N b3 in
                if negb (is_continuation_byte ch4)
                then on_error (utf8_decode s3)
                else rcons (ch * 0x40000 + ch2 * 0x1000 + ch3 * 0x40 + ch4
                            - (0xF0 * 0x40000 + 0x80 * 0x1000
                               + 0x80 * 0x40 + 0x80))
                           (utf8_decode s4)
              end
          end
      end
    else on_error (utf8_decode s1)
  end.
End Utf8.

(** [data.decode('utf-8', errors=h)] *)
Definition decode (h : error_handler) (data : bytes) : result str :=
  utf8_decode h data.

(** ** The network, the filesystem and the pipeline's effects *)

(** What [requests.get(url, headers=headers, stream=True, timeout=30)]
    hands back when it does not raise: the status line, the declared
    content type ([None] when the header is absent), and the chunks that
    [iter_content(chunk_size=8192)] yields, possibly followed by an
    exception raised while the body is read. *)
Record response : Type := {
  status_code : N;
  content_type : option str;
  body : list bytes;
  body_error : option exn
}.

(** The behaviour of the outside world during one call: the network's
    answer, whether [open(name, 'wb')] is refused, and whether the [k]-th
    [file.write] on [name] fails. *)
Record world : Type := {
  requests_get : str -> result response;
  open_error : str -> option exn;
  write_error : str -> nat -> option exn
}.

(** The files of the working directory, by name. *)
Abbreviation filesystem := (gmap str bytes).

(** Computations that may raise and that act on the filesystem; the
    filesystem reached when an exception is raised is kept. *)
Definition M (A : Type) : Type := filesystem -> result A * filesystem.

Definition ret {A} (a : A) : M A := fun fs => (Return a, fs).
Definition raise {A} (e : exn) : M A := fun fs => (Raise e, fs).
Definition lift {A} (r : result A) : M A := fun fs => (r, fs).
Definition bind {A B} (m : M A) (k : A -> M B) : M B :=
  fun fs =>
    match m fs with
    | (Return a, fs') => k a fs'
    | (Raise e, fs') => (Raise e, fs')
    end.

Declare Scope py_scope.
Delimit Scope py_scope with py.
Notation "x <- m ;; k" := (bind m (fun x => k))
  (at level 100, m at next level, right associativity) : py_scope.
Notation "m ;; k" := (bind m (fun _ => k))
  (at level 100, right associativity) : py_scope.

(** [response.raise_for_status()]: an [HTTPError] for a client or server
    error status, nothing otherwise. *)
Definition raise_for_status (r : response) : result unit :=
  if (400 <=? status_code r) && (status_code r <? 600)
  then Raise HTTPError else Return tt.

(** [open(name, 'wb')]: creates the file or truncates it. *)
Definition open_wb (w : world) (name : str) : M unit :=
  fun fs =>
    match open_error w name with
    | Some e => (Raise e, fs)
    | None => (Return tt, <[name := []]> fs)
    end.

(** The [k]-th [file.write(chunk)] on the open file [name]. *)
Definition file_write (w : world) (name : str) (k : nat) (chunk : bytes)
  : M unit :=
  fun fs =>
    match write_error w name k with
    | Some e => (Raise e, fs)
    | None => (Return tt, alter (fun old => old ++ chunk) name fs)
    end.

(** [for chunk in content_chunks: file.write(chunk)], [k] writes done. *)
Fixpoint write_chunks (w : world) (name : str) (k : nat) (chunks : list bytes)
  : M unit :=
  match chunks with
  | [] => ret tt
  | chunk :: rest =>
      (file_write w name k chunk ;; write_chunks w name (S k) rest)%py
  end.

(** The first write among the [n] writes from the [k]-th on that fails. *)
Fixpoint first_write_error (w : world) (name : str) (k n : nat)
  : option (nat * exn) :=
  match n with
  | O => None
  | S n' =>
      match write_error w name k with
      | Some e => Some (k, e)
      | None => first_write_error w name (S k) n'
      end
  end.

(** Reading a local variable that may not have been assigned. *)
Definition read_local {A} (name : option A) : result A :=
  match name with
  | Some v => Return v
  | None => Raise UnboundLocalError
  end.

(** The local variables the download loop assigns. *)
Record locals : Type := {
  first_chunk : option bytes;
  extension_from_content : option str;
  content_chunks : list bytes
}.

(** ** [download_file]

    The two scripts carry the same [download_file] but for the classifiers
    they call and the step that decides the extension; the function is
    written once over these three. *)
Section Pipeline.
Variable get_file_extension_from_content_type : str -> str.
Variable detect_file_type_from_content : bytes -> result str.
(** The [if]/[elif]/[else] deciding [final_extension] from
    [extension_from_content] and [extension_from_header]. *)
Variable decide_extension : str -> str -> str.

(** One iteration of [for chunk in response.iter_content(...)]. *)
Definition loop_body (l : locals) (chunk : bytes) : result locals :=
  rbind
    (match first_chunk l with
     | None =>
         rbind (detect_file_type_from_content chunk) (fun ext =>
           Return {| first_chunk := Some chunk;
                     extension_from_content := Some ext;
                     content_chunks := content_chunks l |})
     | Some _ => Return l
     end)
    (fun l' =>
       Return {| first_chunk := first_chunk l';
                 extension_from_content := extension_from_content l';
                 content_chunks := content_chunks l' ++ [chunk] |}).

Fixpoint for_chunks (l : locals) (chunks : list bytes) : result locals :=
  match chunks with
  | [] => Return l
  | chunk :: rest => rbind (loop_body l chunk) (fun l' => for_chunks l' rest)
  end.

(** The loop over the streamed body: the chunks, then the exception the
    stream ends with, if any. *)
Definition read_body (r : response) : result locals :=
  rbind (for_chunks {| first_chunk := None;
                       extension_from_content := None;
                       content_chunks := [] |} (body r))
    (fun l => match body_error r with
              | Some e => Raise e
              | None => Return l
              end).

(** The body of the [try] statement. *)
Definition download_file_try (w : world) (url base_filename : str)
  : M (bool * option str) :=
  (response <- lift (requests_get w url) ;;
   lift (raise_for_status response) ;;
   let content_type := default [] (content_type response) in
   let extension_from_header :=
     get_file_extension_from_content_type content_type in
   l <- lift (read_body response) ;;
   extension_from_content <- lift (read_local (extension_from_content l)) ;;
   let final_extension :=
     decide_extension extension_from_content extension_from_header in
   let final_filename := base_filename ++ final_extension in
   open_wb w final_filename ;;
   write_chunks w final_filename 0 (content_chunks l) ;;
   ret (true, Some final_filename))%py.

(** [download_file(url, base_filename)]: the [try] body under its two
    handlers, [except RequestException] and [except Exception]. *)
Definition download_file (w : world) (url base_filename : str)
  : M (bool * option str) :=
  fun fs =>
    match download_file_try w url base_filename fs with
    | (Return outcome, fs') => (Return outcome, fs')
    | (Raise e, fs') =>
        if is_RequestException e then (Return (false, None), fs')
        else if is_Exception e then (Return (false, None), fs')
        else (Raise e, fs')
    end.
End Pipeline.

(** ** The rows and the counters of [main]

    A row of the sheet [main] reads, its three cells as the strings the
    f-strings of the loop format them to. *)
Record row : Type := {
  Oblast : str;
  Type_ : str;
  Link : str
}.

(** The download statistics [main] keeps. *)
Record statistics : Type := {
  successful_downloads : nat;
  failed_downloads : nat;
  failed_downloads_list : list str
}.

(** ** [Code/get_investments_data.py]: the general profile *)

Module get_investments_data.
Section WithLower.
Variable unicode_lower : str -> N -> str -> str.

Definition content_type_map : list (str * str) := dict_display [
  (u "application/pdf", u ".pdf");
  (u "application/vnd.ms-excel", u ".xls");
  (u "application/vnd.openxmlformats-officedocument.spreadsheetml.sheet",
   u ".xlsx");
  (u "application/zip", u ".zip");
  (u "application/x-rar-compressed", u ".rar");
  (u "application/x-7z-compressed", u ".7z");
  (u "application/octet-stream", u ".bin");
  (u "text/csv", u ".csv");
  (u "application/json", u ".json");
  (u "text/plain", u ".txt");
  (u "application/xml", u ".xml");
  (u "text/xml", u ".xml")
].

Definition get_file_extension_from_content_type (content_type : str) : str :=
  let clean_content_type :=
    lower unicode_lower (strip (split_first 0x3B content_type)) in
  dict_get content_type_map clean_content_type (u ".file").

Definition magic_numbers : list (bytes * str) := dict_display [
  ([x50; x4b; x03; x04], u ".zip");
  ([x50; x4b; x05; x06], u ".zip");
  ([x50; x4b; x07; x08], u ".zip");
  ([x52; x61; x72; x21], u ".rar");
  ([x37; x7a; xbc; xaf; x27; x1c], u ".7z");
  ([x25; x50; x44; x46], u ".pdf");
  ([xd0; xcf; x11; xe0; xa1; xb1; x1a; xe1], u ".xls");
  ([x50; x4b; x03; x04], u ".xlsx");
  ([x1f; x8b], u ".gz");
  ([x42; x5a; x68], u ".bz2")
].

(** [for magic, ext in magic_numbers.items(): ...]: the label the loop
    returns, or [None] when it runs to its end. *)
Fixpoint check_magic_numbers (content : bytes) (items : list (bytes * str))
  : option str :=
  match items with
  | [] => None
  | (magic, ext) :: rest =>
      if startswith content magic then
        if bool_decide (magic = [x50; x4b; x03; x04]) then
          if contains (b "xl/") (take 1024 content)
             || contains (b "[Content_Types].xml") (take 1024 content)
          then Some (u ".xlsx")
          else if contains (b "word/") (take 1024 content)
          then Some (u ".docx")
          else Some (u ".zip")
        else Some ext
      else check_magic_numbers content rest
  end.

(** The textual sniffing applied to [content_str]. *)
Definition sniff_text (content_str : str) : str :=
  if startswith content_str (u "<?xml") then u ".xml"
  else if startswith content_str (u "{") || startswith content_str (u "[")
  then u ".json"
  else if contains (u ",") content_str && contains [0x0A] content_str
  then u ".csv"
  else u ".file".

Definition detect_file_type_from_content (content : bytes) : result str :=
  if bool_decide (content = []) then Return (u ".file")
  else
    match check_magic_numbers content magic_numbers with
    | Some ext => Return ext
    | None =>
        rbind (decode ignore (take 1024 content)) (fun decoded =>
          let content_str := lower unicode_lower decoded in
          Return (sniff_text content_str))
    end.

Definition decide_extension
    (extension_from_content extension_from_header : str) : str :=
  if negb (bool_decide (extension_from_content = u ".file"))
  then extension_from_content
  else if negb (bool_decide (extension_from_header = u ".file"))
  then extension_from_header
  else u ".file".

Definition download_file : world -> str -> str -> M (bool * option str) :=
  download_file
    get_file_extension_from_content_type
    detect_file_type_from_content
    decide_extension.
End WithLower.
End get_investments_data.

(** ** [Code/get_other_controls.py]: the spreadsheet-only profile *)

Module get_other_controls.
Section WithLower.
Variable unicode_lower : str -> N -> str -> str.

Definition content_type_map : list (str * str) := dict_display [
  (u "application/vnd.ms-excel", u ".xls");
  (u "application/vnd.openxmlformats-officedocument.spreadsheetml.sheet",
   u ".xlsx");
  (u "application/octet-stream", u ".xlsx");
  (u "text/csv", u ".csv");
  (u "application/json", u ".json");
  (u "text/plain", u ".txt");
  (u "application/xml", u ".xml");
  (u "text/xml", u ".xml")
].

Definition get_file_extension_from_content_type (content_type : str) : str :=
  let clean_content_type :=
    lower unicode_lower (strip (split_first 0x3B content_type)) in
  dict_get content_type_map clean_content_type (u ".xlsx").

Definition magic_numbers : list (bytes * str) := dict_display [
  ([xd0; xcf; x11; xe0; xa1; xb1; x1a; xe1], u ".xls");
  ([x50; x4b; x03; x04], u ".xlsx");
  ([x50; x4b; x05; x06], u ".xlsx");
  ([x50; x4b; x07; x08], u ".xlsx")
].

Fixpoint check_magic_numbers (content : bytes) (items : list (bytes * str))
  : option str :=
  match items with
  | [] => None
  | (magic, ext) :: rest =>
      if startswith content magic then
        if startswith magic [x50; x4b]
           && (contains (b "xl/") (take 1024 content)
               || contains (b "[Content_Types].xml") (take 1024 content))
        then Some (u ".xlsx")
        else Some ext
      else check_magic_numbers content rest
  end.

Definition detect_file_type_from_content (content : bytes) : result str :=
  if bool_decide (content = []) then Return (u ".xlsx")
  else
    match check_magic_numbers content magic_numbers with
    | Some ext => Return ext
    | None => Return (u ".xlsx")
    end.

(** The characters [sanitize_filename] replaces; the double quote is
    given by its code point. *)
Definition invalid_chars : str := u "<>:" ++ [0x22] ++ u "/\|?*".

Definition sanitize_filename (filename : str) : str :=
  let filename :=
    fold_left (fun filename char => replace char 0x5F filename)
              invalid_chars filename in
  let filename :=
    strip_with (fun c => bool_decide (c ∈ u ". ")) filename in
  if (200 <? length filename)%nat then take 200 filename else filename.

Definition decide_extension
    (extension_from_content extension_from_header : str) : str :=
  if bool_decide (extension_from_content ∈ [u ".xls"; u ".xlsx"])
  then extension_from_content
  else if bool_decide (extension_from_header ∈ [u ".xls"; u ".xlsx"])
  then extension_from_header
  else u ".xlsx".

Definition download_file : world -> str -> str -> M (bool * option str) :=
  download_file
    get_file_extension_from_content_type
    detect_file_type_from_content
    decide_extension.

(** One iteration of [for index, row in df.iterrows()] in [main], the
    sleep and the prints left out: the base name is made from the row,
    the file is downloaded, the counters are updated. *)
Definition main_loop_body (w : world) (r : row) (st : statistics)
  : M statistics :=
  let oblast := Oblast r in
  let control_type := Type_ r in
  let link := Link r in
  let base_filename := sanitize_filename (oblast ++ u "_" ++ control_type) in
  (outcome <- download_file w link base_filename ;;
   if fst outcome
   then ret {| successful_downloads := successful_downloads st + 1;
               failed_downloads := failed_downloads st;
               failed_downloads_list := failed_downloads_list st |}
   else ret {| successful_downloads := successful_downloads st;
               failed_downloads := failed_downloads st + 1;
               failed_downloads_list :=
                 failed_downloads_list st
                 ++ [oblast ++ u " - " ++ control_type] |})%py.

(** The loop of [main] over the rows from the [i]-th on, run in the
    Controls directory; [ws k] is what the network and the disk do during
    the [k]-th iteration. *)
Fixpoint main_loop (ws : nat -> world) (i : nat) (rows : list row)
    (st : statistics) : M statistics :=
  match rows with
  | [] => ret st
  | r :: rest =>
      (st' <- main_loop_body (ws i) r st ;; main_loop ws (S i) rest st')%py
  end.
End WithLower.
End get_other_controls.

(** ** The two profiles side by side *)

Inductive profile : Type := general | spreadsheet_only.

(** The label a profile's classifiers fall back to. *)
Definition fallback (p : profile) : str :=
  match p with
  | general => u ".file"
  | spreadsheet_only => u ".xlsx"
  end.

Section Profiles.
Variable unicode_lower : str -> N -> str -> str.

Definition classify_by_content_type (p : profile) : str -> str :=
  match p with
  | general =>
      get_investments_data.get_file_extension_from_content_type unicode_lower
  | spreadsheet_only =>
      get_other_controls.get_file_extension_from_content_type unicode_lower
  end.

Definition content_type_table (p : profile) : list (str * str) :=
  match p with
  | general => get_investments_data.content_type_map
  | spreadsheet_only => get_other_controls.content_type_map
  end.

Definition classify_by_signature (p : profile) : bytes -> result str :=
  match p with
  | general =>
      get_investments_data.detect_file_type_from_content unicode_lower
  | spreadsheet_only => get_other_controls.detect_file_type_from_content
  end.

Definition decide_extension_of (p : profile) : str -> str -> str :=
  match p with
  | general => get_investments_data.decide_extension
  | spreadsheet_only => get_other_controls.decide_extension
  end.

Definition fetch_and_save (p : profile)
  : world -> str -> str -> M (bool * option str) :=
  match p with
  | general => get_investments_data.download_file unicode_lower
  | spreadsheet_only => get_other_controls.download_file unicode_lower
  end.
End Profiles.

(** A lower-casing table that leaves every code point outside ASCII as it
    is, to run the definitions on ASCII data. *)
Definition ascii_table : str -> N -> str -> str := fun _ c _ => [c].

(** A world in which the network answers every request with [r] and the
    filesystem refuses nothing. *)
Definition serving (r : response) : world :=
  {| requests_get := fun _ => Return r;
     open_error := fun _ => None;
     write_error := fun _ _ => None |}.


(** * Properties *)

(** ** The runtime model *)

Lemma startswith_app {A} `{EqDecision A} (p r : list A) :
  startswith (p ++ r) p = true.
Proof.
  induction p as [|x p IH]; simpl; [reflexivity|].
  rewrite bool_decide_eq_true_2 by reflexivity. exact IH.
Qed.

Lemma startswith_inv {A} `{EqDecision A} (s p : list A) :
  startswith s p = true -> exists r, s = p ++ r.
Proof.
  revert s. induction p as [|x p IH]; intros s Hs.
  - exists s. reflexivity.
  - destruct s as [|y s]; simpl in Hs; [discriminate|].
    apply andb_true_iff in Hs as [Hxy Hs].
    apply bool_decide_eq_true_1 in Hxy. subst y.
    destruct (IH s Hs) as [r ->]. exists r. reflexivity.
Qed.

Lemma split_first_idem {A} `{EqDecision A} (sep : A) (s : list A) :
  split_first sep (split_first sep s) = split_first sep s.
Proof.
  induction s as [|c s IH]; simpl; [reflexivity|].
  destruct (bool_decide (c = sep)) eqn:E; simpl; [reflexivity|].
  rewrite E, IH. reflexivity.
Qed.

Lemma split_first_app_l {A} `{EqDecision A} (sep : A) (w s : list A) :
  forallb (fun c => negb (bool_decide (c = sep))) w = true ->
  split_first sep (w ++ s) = w ++ split_first sep s.
Proof.
  induction w as [|c w IH]; simpl; intros Hw; [reflexivity|].
  apply andb_true_iff in Hw as [Hc Hw].
  apply negb_true_iff in Hc. rewrite Hc, (IH Hw). reflexivity.
Qed.

(** Appending to [s] leaves [s.split(sep)[0]] alone when [s] holds a
    separator and extends it otherwise. *)
Lemma split_first_app_r {A} `{EqDecision A} (sep : A) (s w : list A) :
  forallb (fun c => negb (bool_decide (c = sep))) w = true ->
  split_first sep (s ++ w) = split_first sep s
  \/ split_first sep (s ++ w) = split_first sep s ++ w.
Proof.
  intros Hw. induction s as [|c s IH]; simpl.
  - right. rewrite <- (app_nil_r w) at 1.
    rewrite (split_first_app_l sep w [] Hw). simpl. apply app_nil_r.
  - destruct (bool_decide (c = sep)); [left; reflexivity|].
    destruct IH as [-> | ->]; [left | right]; reflexivity.
Qed.

Lemma drop_while_all {A} (p : A -> bool) (w : list A) :
  forallb p w = true -> drop_while p w = [].
Proof.
  induction w as [|c w IH]; simpl; [reflexivity|].
  intros Hw. apply andb_true_iff in Hw as [-> Hw]. exact (IH Hw).
Qed.

Lemma drop_while_app_all {A} (p : A -> bool) (w s : list A) :
  forallb p w = true -> drop_while p (w ++ s) = drop_while p s.
Proof.
  induction w as [|c w IH]; simpl; [reflexivity|].
  intros Hw. apply andb_true_iff in Hw as [-> Hw]. exact (IH Hw).
Qed.

Lemma drop_while_app_r {A} (p : A -> bool) (s w : list A) :
  forallb p w = true ->
  drop_while p (s ++ w) = [] /\ drop_while p s = []
  \/ drop_while p (s ++ w) = drop_while p s ++ w.
Proof.
  intros Hw. induction s as [|c s IH]; simpl.
  - left. split; [apply drop_while_all; exact Hw | reflexivity].
  - destruct (p c); [exact IH | right; reflexivity].
Qed.

Lemma forallb_rev {A} (p : A -> bool) (w : list A) :
  forallb p (rev w) = forallb p w.
Proof.
  induction w as [|c w IH]; simpl; [reflexivity|].
  rewrite forallb_app, IH. simpl. rewrite andb_true_r. apply andb_comm.
Qed.

Lemma rstrip_with_app_all {A} (p : A -> bool) (s w : list A) :
  forallb p w = true -> rstrip_with p (s ++ w) = rstrip_with p s.
Proof.
  intros Hw. unfold rstrip_with. rewrite rev_app_distr.
  rewrite drop_while_app_all; [reflexivity|].
  rewrite forallb_rev. exact Hw.
Qed.

(** Characters that [strip] removes make no difference around a string. *)
Lemma strip_with_pad {A} (p : A -> bool) (w1 s w2 : list A) :
  forallb p w1 = true -> forallb p w2 = true ->
  strip_with p (w1 ++ s ++ w2) = strip_with p s.
Proof.
  intros H1 H2. unfold strip_with, lstrip_with.
  rewrite (drop_while_app_all p w1 _ H1).
  destruct (drop_while_app_r p s w2 H2) as [[-> ->] | ->]; [reflexivity|].
  apply rstrip_with_app_all. exact H2.
Qed.

(** *** Lower-casing *)

Lemma ascii_lower_ascii (c : N) : (ascii_lower c <? 0x80) = (c <? 0x80).
Proof.
  unfold ascii_lower.
  destruct (0x41 <=? c) eqn:E1; destruct (c <=? 0x5A) eqn:E2; simpl;
    try reflexivity.
  apply N.leb_le in E1, E2.
  transitivity true; [apply N.ltb_lt | symmetry; apply N.ltb_lt]; lia.
Qed.

(** On a string that is ASCII once its ASCII letters are folded, hence on
    every ASCII string, [lower] is the letter-wise ASCII folding. *)
Lemma lower_from_ascii ul (before s : str) :
  forallb (fun c => c <? 0x80) (map ascii_lower s) = true ->
  lower_from ul before s = map ascii_lower s.
Proof.
  revert before. induction s as [|c s IH]; intros before Hs; simpl in *;
    [reflexivity|].
  apply andb_true_iff in Hs as [Hc Hs].
  rewrite ascii_lower_ascii in Hc. rewrite Hc. simpl.
  rewrite (IH _ Hs). reflexivity.
Qed.

Lemma lower_matches_key ul (s key : str) :
  map ascii_lower s = key ->
  forallb (fun c => c <? 0x80) key = true ->
  lower ul s = key.
Proof.
  intros <- Hkey. apply lower_from_ascii. exact Hkey.
Qed.

Lemma lower_head ul (c : N) (s : str) :
  (c <? 0x80) = true ->
  lower ul (c :: s) = ascii_lower c :: lower_from ul [c] s.
Proof. intros Hc. unfold lower. simpl. rewrite Hc. reflexivity. Qed.

(** *** Decoding *)

(** With the [ignore] handler the decoder returns on every input. *)
Lemma utf8_decode_ignore_total (s : bytes) :
  exists t, utf8_decode ignore s = Return t.
Proof.
  assert (H : forall n (s : bytes), (length s <= n)%nat ->
                exists t, utf8_decode ignore s = Return t).
  { clear s. induction n as [|n IH]; intros s Hn.
    - destruct s; [eexists; reflexivity | simpl in Hn; lia].
    - destruct s as [|b0 s1]; [eexists; reflexivity|].
      cbn [utf8_decode].
      repeat match goal with
      | |- context [if ?c then _ else _] => destruct c
      | |- context [match ?l with [] => _ | _ :: _ => _ end] =>
          is_var l; destruct l
      end;
      cbn [on_error];
      try (eexists; reflexivity);
      match goal with
      | |- exists t, rcons _ (utf8_decode ignore ?l) = _ =>
          destruct (IH l ltac:(simpl in *; lia)) as [t ->];
          eexists; reflexivity
      | |- exists t, utf8_decode ignore ?l = _ =>
          apply IH; simpl in *; lia
      end. }
  apply (H (length s)). reflexivity.
Qed.

Example decode_ascii : decode strict (b "{x}") = Return (u "{x}").
Proof. reflexivity. Qed.
Example decode_euro :
  decode strict [xe2; x82; xac] = Return [0x20AC].
Proof. reflexivity. Qed.
Example decode_strict_invalid :
  decode strict [xff; x7b] = Raise UnicodeDecodeError.
Proof. reflexivity. Qed.
Example decode_ignore_invalid :
  decode ignore [xff; x7b; xe2; x82] = Return (u "{").
Proof. reflexivity. Qed.

(** The [strict] handler raises where [ignore] skips. *)
Example decode_handlers_differ :
  decode strict [xc3; x28] = Raise UnicodeDecodeError
  /\ decode ignore [xc3; x28] = Return (u "(").
Proof. split; reflexivity. Qed.

(** ** The metadata classifier *)

Lemma isspace_not_semicolon (w : str) :
  forallb isspace w = true ->
  forallb (fun c => negb (bool_decide (c = 0x3B))) w = true.
Proof.
  induction w as [|c w IH]; simpl; [reflexivity|].
  intros Hw. apply andb_true_iff in Hw as [Hc Hw].
  rewrite (IH Hw), andb_true_r. apply negb_true_iff.
  destruct (bool_decide (c = 0x3B)) eqn:E; [|reflexivity].
  apply bool_decide_eq_true_1 in E. subst c. discriminate Hc.
Qed.

Section ContentTypeLookup.
Variable ul : str -> N -> str -> str.
Variable table : list (str * str).
Variable default : str.

(** Both scripts clean the header and look it up in the same way. *)
Lemma classify_split_first (s : str) :
  dict_get table
    (lower ul (strip (split_first 0x3B (split_first 0x3B s)))) default
  = dict_get table (lower ul (strip (split_first 0x3B s))) default.
Proof. rewrite split_first_idem. reflexivity. Qed.

Lemma classify_pad (w1 s w2 : str) :
  forallb isspace w1 = true -> forallb isspace w2 = true ->
  dict_get table
    (lower ul (strip (split_first 0x3B (w1 ++ s ++ w2)))) default
  = dict_get table (lower ul (strip (split_first 0x3B s))) default.
Proof.
  intros H1 H2. f_equal. f_equal. unfold strip.
  rewrite (split_first_app_l _ _ _ (isspace_not_semicolon _ H1)).
  destruct (split_first_app_r 0x3B s w2 (isspace_not_semicolon _ H2))
    as [-> | ->].
  - rewrite <- (app_nil_r (split_first 0x3B s)) at 1.
    apply strip_with_pad; [exact H1 | reflexivity].
  - apply strip_with_pad; assumption.
Qed.

(** The table is sound for lookups when every listed key is ASCII and
    is found with its own label. *)
Hypothesis table_ok :
  forallb (fun kv => bool_decide (dict_get table (fst kv) default = snd kv)
                     && forallb (fun c => c <? 0x80) (fst kv)) table = true.

Lemma classify_key (s key ext : str) :
  In (key, ext) table ->
  map ascii_lower (strip (split_first 0x3B s)) = key ->
  dict_get table (lower ul (strip (split_first 0x3B s))) default = ext.
Proof.
  intros Hin Hkey.
  pose proof (proj1 (forallb_forall _ _) table_ok _ Hin) as Hok.
  simpl in Hok. apply andb_true_iff in Hok as [Hget Hascii].
  rewrite (lower_matches_key ul _ _ Hkey Hascii).
  apply bool_decide_eq_true_1 in Hget. exact Hget.
Qed.
End ContentTypeLookup.

(** C7. In both profiles the metadata classifier gives a header the label
    of the header cut at its first semicolon, so that
    ["text/csv; charset=utf-8"] is classified as ["text/csv"]; white space
    around the header makes no difference; and a header whose cleaned
    value is a key of the table up to the case of its ASCII letters gets
    that key's label. *)
Theorem C7_content_type_parameters_ignored
    (ul : str -> N -> str -> str) (p : profile) :
  (forall s : str,
      classify_by_content_type ul p s
      = classify_by_content_type ul p (split_first 0x3B s))
  /\ classify_by_content_type ul p (u "text/csv; charset=utf-8")
     = classify_by_content_type ul p (u "text/csv")
  /\ classify_by_content_type ul p (u "text/csv") = u ".csv"
  /\ (forall w1 s w2 : str,
        forallb isspace w1 = true -> forallb isspace w2 = true ->
        classify_by_content_type ul p (w1 ++ s ++ w2)
        = classify_by_content_type ul p s)
  /\ (forall s key ext : str,
        In (key, ext) (content_type_table p) ->
        map ascii_lower (strip (split_first 0x3B s)) = key ->
        classify_by_content_type ul p s = ext).
Proof.
  destruct p; cbn [classify_by_content_type content_type_table];
    unfold get_investments_data.get_file_extension_from_content_type,
           get_other_controls.get_file_extension_from_content_type.
  all: repeat split.
  all: try (intros; symmetry; apply classify_split_first).
  all: try (intros; apply classify_pad; assumption).
  all: try (intros s key ext; apply classify_key; vm_compute; reflexivity).
  all: try (rewrite <- (classify_split_first ul _ _ (u "text/csv; charset=utf-8"));
            reflexivity).
  all: erewrite (classify_key ul _ _ _ (u "text/csv") (u "text/csv") (u ".csv"));
    [reflexivity | vm_compute; reflexivity | vm_compute; tauto | reflexivity].
Qed.

Lemma C7_content_type_parameters_ignored_witness :
  classify_by_content_type ascii_table spreadsheet_only
    (u "  " ++ u "Application/VND.MS-Excel; q=1" ++ u " ")
  = classify_by_content_type ascii_table spreadsheet_only
      (u "Application/VND.MS-Excel; q=1")
  /\ classify_by_content_type ascii_table general
       (u " Application/JSON ; charset=utf-8") = u ".json".
Proof.
  destruct (C7_content_type_parameters_ignored ascii_table spreadsheet_only)
    as (_ & _ & _ & Hpad & _).
  destruct (C7_content_type_parameters_ignored ascii_table general)
    as (_ & _ & _ & _ & Hkey).
  split.
  - apply Hpad; reflexivity.
  - apply (Hkey _ (u "application/json")); [vm_compute; tauto | reflexivity].
Defined.

(** ** The signature classifier *)

(** The dictionary the general profile iterates over: the display names
    the ZIP signature twice, so the key keeps its first position and
    carries the later label. *)
Lemma general_magic_numbers_items :
  get_investments_data.magic_numbers =
  [ ([x50; x4b; x03; x04], u ".xlsx");
    ([x50; x4b; x05; x06], u ".zip");
    ([x50; x4b; x07; x08], u ".zip");
    ([x52; x61; x72; x21], u ".rar");
    ([x37; x7a; xbc; xaf; x27; x1c], u ".7z");
    ([x25; x50; x44; x46], u ".pdf");
    ([xd0; xcf; x11; xe0; xa1; xb1; x1a; xe1], u ".xls");
    ([x1f; x8b], u ".gz");
    ([x42; x5a; x68], u ".bz2") ].
Proof. reflexivity. Qed.

Lemma general_check_magic_numbers_none (content : bytes) items :
  (forall magic ext, In (magic, ext) items -> startswith content magic = false) ->
  get_investments_data.check_magic_numbers content items = None.
Proof.
  induction items as [|[magic ext] items IH]; intros Hno; simpl;
    [reflexivity|].
  rewrite (Hno magic ext) by (left; reflexivity).
  apply IH. intros m e Hin. apply (Hno m e). right. exact Hin.
Qed.

Lemma spreadsheet_check_magic_numbers_range (content : bytes) items :
  match get_other_controls.check_magic_numbers content items with
  | None => True
  | Some ext => ext = u ".xlsx" \/ In ext (map snd items)
  end.
Proof.
  induction items as [|[magic ext] items IH];
    cbn [get_other_controls.check_magic_numbers map snd]; [exact I|].
  destruct (startswith content magic).
  - match goal with |- context [if ?c then _ else _] => destruct c end;
      [left | right; left]; reflexivity.
  - destruct (get_other_controls.check_magic_numbers content items);
      [|exact I].
    destruct IH as [-> | Hin]; [left; reflexivity | right; right; exact Hin].
Qed.

(** The spreadsheet-only classifier knows two labels. *)
Lemma spreadsheet_detect_range (content : bytes) :
  get_other_controls.detect_file_type_from_content content = Return (u ".xls")
  \/ get_other_controls.detect_file_type_from_content content
     = Return (u ".xlsx").
Proof.
  unfold get_other_controls.detect_file_type_from_content.
  destruct (bool_decide (content = [])); [right; reflexivity|].
  pose proof (spreadsheet_check_magic_numbers_range content
                get_other_controls.magic_numbers) as H.
  destruct (get_other_controls.check_magic_numbers content
              get_other_controls.magic_numbers) as [ext|];
    [|right; reflexivity].
  destruct H as [-> | Hin]; [right; reflexivity|].
  vm_compute in Hin.
  destruct Hin as [<- | [<- | [<- | [<- | []]]]];
    [left | right | right | right]; reflexivity.
Qed.

Lemma general_detect_total ul (content : bytes) :
  exists label,
    get_investments_data.detect_file_type_from_content ul content
    = Return label.
Proof.
  unfold get_investments_data.detect_file_type_from_content.
  destruct (bool_decide (content = [])); [eexists; reflexivity|].
  destruct (get_investments_data.check_magic_numbers _ _);
    [eexists; reflexivity|].
  unfold decode.
  destruct (utf8_decode_ignore_total (take 1024 content)) as [t ->].
  eexists; reflexivity.
Qed.

(** C5. In both profiles the signature classifier returns a label on
    every buffer and never raises; on the empty buffer it returns the
    profile's fallback label; the decoding that precedes the textual
    sniffing returns a text on every buffer, valid UTF-8 or not, and a
    buffer that opens with an undecodable byte is still sniffed. *)
Theorem C5_signature_classifier_total
    (ul : str -> N -> str -> str) (p : profile) (content : bytes) :
  (exists label, classify_by_signature ul p content = Return label)
  /\ classify_by_signature ul p [] = Return (fallback p)
  /\ (exists text, decode ignore (take 1024 content) = Return text)
  /\ decode strict [xff; x7b; x7d] = Raise UnicodeDecodeError
  /\ classify_by_signature ul general [xff; x7b; x7d] = Return (u ".json").
Proof.
  split; [|split; [|split; [|split]]].
  - destruct p; cbn [classify_by_signature].
    + apply general_detect_total.
    + destruct (spreadsheet_detect_range content) as [-> | ->];
        eexists; reflexivity.
  - destruct p; reflexivity.
  - apply utf8_decode_ignore_total.
  - reflexivity.
  - reflexivity.
Qed.

(** C2, as amended. On a buffer that begins with [50 4B 03 04] the
    general classifier returns ['.xlsx'] when the first 1024 bytes hold
    ["xl/"] or ["[Content_Types].xml"]; otherwise ['.docx'] when they hold
    ["word/"]; otherwise ['.zip']. *)
Theorem C2_zip_family_disambiguation
    (ul : str -> N -> str -> str) (rest : bytes) :
  let content := [x50; x4b; x03; x04] ++ rest in
  get_investments_data.detect_file_type_from_content ul content =
  Return
    (if contains (b "xl/") (take 1024 content)
        || contains (b "[Content_Types].xml") (take 1024 content)
     then u ".xlsx"
     else if contains (b "word/") (take 1024 content) then u ".docx"
     else u ".zip").
Proof.
  intros content.
  unfold get_investments_data.detect_file_type_from_content.
  rewrite general_magic_numbers_items.
  cbn [get_investments_data.check_magic_numbers].
  rewrite bool_decide_eq_false_2 by discriminate.
  unfold content at 1. rewrite startswith_app.
  rewrite bool_decide_eq_true_2 by reflexivity.
  destruct (contains (b "xl/") _ || _); [reflexivity|].
  destruct (contains (b "word/") _); reflexivity.
Qed.

(** C2, the claim as stated fails: the buffer below begins with the ZIP
    signature and holds ["word/"] but not ["xl/"] in its first 1024 bytes,
    as a word-processor package does, and is labelled ['.xlsx']. *)
Lemma C2_counterexample :
  let content :=
    [x50; x4b; x03; x04] ++ b "[Content_Types].xml" ++ b "word/document.xml" in
  startswith content [x50; x4b; x03; x04] = true
  /\ contains (b "word/") (take 1024 content) = true
  /\ contains (b "xl/") (take 1024 content) = false
  /\ get_investments_data.detect_file_type_from_content ascii_table content
     = Return (u ".xlsx")
  /\ get_investments_data.detect_file_type_from_content ascii_table content
     <> Return (u ".docx").
Proof. vm_compute. repeat split; discriminate. Qed.

(** ** The pipeline *)

(** Both handlers of [download_file] return the failure outcome, and
    every exception of the model is caught by one of them. *)
Lemma handlers_catch {A} (e : exn) (failure escaped : A) :
  (if is_RequestException e then failure
   else if is_Exception e then failure else escaped) = failure.
Proof. destruct e; reflexivity. Qed.

Lemma first_write_error_Some w name k n j e :
  first_write_error w name k n = Some (j, e) ->
  (k <= j < k + n)%nat /\ write_error w name j = Some e
  /\ forall i, (k <= i < j)%nat -> write_error w name i = None.
Proof.
  revert k. induction n as [|n IH]; intros k; simpl; [discriminate|].
  destruct (write_error w name k) eqn:E.
  - intros [= <- <-]. repeat split; [lia | lia | exact E | intros; lia].
  - intros H. destruct (IH _ H) as (Hj & He & Hbefore).
    repeat split; [lia | lia | exact He |].
    intros i Hi. destruct (decide (i = k)) as [-> | Hne]; [exact E|].
    apply Hbefore. lia.
Qed.

Lemma first_write_error_None w name k n :
  first_write_error w name k n = None <->
  forall i, (k <= i < k + n)%nat -> write_error w name i = None.
Proof.
  revert k. induction n as [|n IH]; intros k; simpl.
  - split; [intros _ i Hi; lia | reflexivity].
  - destruct (write_error w name k) eqn:E.
    + split; [discriminate|]. intros H. rewrite H in E by lia. discriminate.
    + rewrite IH. split; intros H i Hi.
      * destruct (decide (i = k)) as [-> | Hne]; [exact E | apply H; lia].
      * apply H. lia.
Qed.

(** The write loop on a file that holds [acc]: the file ends with all the
    chunks appended, or, when a write fails, with the chunks written
    before it. *)
Lemma write_chunks_spec w name (chunks : list bytes) :
  forall k (acc : bytes) (fs : filesystem),
  write_chunks w name k chunks (<[name := acc]> fs) =
  match first_write_error w name k (length chunks) with
  | None => (Return tt, <[name := acc ++ concat chunks]> fs)
  | Some (j, e) =>
      (Raise e, <[name := acc ++ concat (take (j - k) chunks)]> fs)
  end.
Proof.
  induction chunks as [|c cs IH]; intros k acc fs.
  - simpl. unfold ret. rewrite app_nil_r. reflexivity.
  - cbn [write_chunks length first_write_error]. unfold bind, file_write.
    destruct (write_error w name k) eqn:E.
    + rewrite Nat.sub_diag. simpl. rewrite app_nil_r. reflexivity.
    + rewrite alter_insert_eq, IH.
      destruct (first_write_error w name (S k) (length cs))
        as [[j e]|] eqn:F.
      * apply first_write_error_Some in F as (Hj & _ & _).
        replace (j - k)%nat with (S (j - S k)) by lia.
        simpl. rewrite app_assoc. reflexivity.
      * simpl. rewrite app_assoc. reflexivity.
Qed.

Section PipelineFacts.
Variable classify : str -> str.
Variable detect : bytes -> result str.
Variable decide_ext : str -> str -> str.

Lemma for_chunks_started (chunks : list bytes) :
  forall l c,
  first_chunk l = Some c ->
  for_chunks detect l chunks =
  Return {| first_chunk := first_chunk l;
            extension_from_content := extension_from_content l;
            content_chunks := content_chunks l ++ chunks |}.
Proof.
  induction chunks as [|x xs IH]; intros l c Hl; simpl.
  - rewrite app_nil_r. destruct l; reflexivity.
  - unfold loop_body. rewrite Hl. simpl.
    rewrite (IH _ c) by exact Hl. simpl.
    rewrite <- app_assoc, Hl. reflexivity.
Qed.

(** The loop over the body: no chunk leaves the locals unassigned; a
    first chunk is classified and all chunks are kept in order. *)
Lemma read_body_spec (r : response) :
  read_body detect r =
  match body r with
  | [] =>
      match body_error r with
      | Some e => Raise e
      | None => Return {| first_chunk := None;
                          extension_from_content := None;
                          content_chunks := [] |}
      end
  | first :: rest =>
      match detect first with
      | Raise e => Raise e
      | Return ext =>
          match body_error r with
          | Some e => Raise e
          | None => Return {| first_chunk := Some first;
                              extension_from_content := Some ext;
                              content_chunks := body r |}
          end
      end
  end.
Proof.
  unfold read_body. destruct (body r) as [|first rest]; [reflexivity|].
  cbn [for_chunks]. unfold loop_body at 1. cbn [first_chunk rbind].
  destruct (detect first) as [ext|e]; [|reflexivity].
  cbn [rbind first_chunk extension_from_content content_chunks].
  rewrite (for_chunks_started rest _ first) by reflexivity.
  reflexivity.
Qed.

(** [download_file] in closed form: what it returns and the filesystem
    it leaves, by what the network and the filesystem do. *)
Lemma download_file_spec (w : world) (url base_filename : str)
    (fs : filesystem) :
  download_file classify detect decide_ext w url base_filename fs =
  match requests_get w url with
  | Raise _ => (Return (false, None), fs)
  | Return r =>
    match raise_for_status r, body r with
    | Raise _, _ => (Return (false, None), fs)
    | Return _, [] => (Return (false, None), fs)
    | Return _, first :: _ =>
      match detect first, body_error r with
      | Raise _, _ => (Return (false, None), fs)
      | Return _, Some _ => (Return (false, None), fs)
      | Return ext, None =>
        let name :=
          base_filename
          ++ decide_ext ext (classify (default [] (content_type r))) in
        match open_error w name with
        | Some _ => (Return (false, None), fs)
        | None =>
          match first_write_error w name 0 (length (body r)) with
          | None =>
              (Return (true, Some name), <[name := concat (body r)]> fs)
          | Some (j, _) =>
              (Return (false, None),
               <[name := concat (take j (body r))]> fs)
          end
        end
      end
    end
  end.
Proof.
  unfold download_file, download_file_try, bind, lift.
  destruct (requests_get w url) as [r|e]; [|apply handlers_catch].
  destruct (raise_for_status r) as [[]|e]; [|apply handlers_catch].
  rewrite read_body_spec.
  destruct (body r) as [|first rest] eqn:Hbody.
  - destruct (body_error r) as [e|];
      cbn [read_local extension_from_content]; apply handlers_catch.
  - destruct (detect first) as [ext|e]; [|apply handlers_catch].
    destruct (body_error r) as [e|]; [apply handlers_catch|].
    cbn [read_local extension_from_content content_chunks].
    unfold open_wb.
    destruct (open_error w _) as [e|]; [apply handlers_catch|].
    rewrite write_chunks_spec. unfold ret.
    destruct (first_write_error w _ 0 _) as [[j e]|];
      [rewrite Nat.sub_0_r; apply handlers_catch | reflexivity].
Qed.

(** A call during which nothing fails saves the whole body. *)
Lemma download_file_saves (w : world) (url base_filename : str)
    (fs : filesystem) (r : response) (first : bytes) (rest : list bytes)
    (sig : str) :
  let name :=
    base_filename
    ++ decide_ext sig (classify (default [] (content_type r))) in
  requests_get w url = Return r ->
  raise_for_status r = Return tt ->
  body r = first :: rest ->
  body_error r = None ->
  detect first = Return sig ->
  open_error w name = None ->
  (forall k, write_error w name k = None) ->
  download_file classify detect decide_ext w url base_filename fs
  = (Return (true, Some name), <[name := concat (body r)]> fs).
Proof.
  intros name Hget Hstatus Hbody Herr Hsig Hopen Hwrite.
  rewrite download_file_spec.
  rewrite Hget, Hstatus, Hbody, Hsig, Herr. cbn zeta.
  fold name. rewrite Hopen.
  rewrite (proj2 (first_write_error_None w _ 0 _))
    by (intros; apply Hwrite).
  reflexivity.
Qed.

(** The body of the [try] statement on a response without chunks. *)
Lemma download_file_try_no_chunk (w : world) (url base_filename : str)
    (fs : filesystem) (r : response) :
  requests_get w url = Return r ->
  raise_for_status r = Return tt ->
  body r = [] -> body_error r = None ->
  download_file_try classify detect decide_ext w url base_filename fs
  = (Raise UnboundLocalError, fs).
Proof.
  intros Hget Hstatus Hbody Herr.
  unfold download_file_try, bind, lift.
  rewrite Hget, Hstatus, read_body_spec, Hbody, Herr. reflexivity.
Qed.
End PipelineFacts.

(** ** The pipeline of each script *)

Lemma fetch_and_save_unfold ul (p : profile) :
  fetch_and_save ul p =
  download_file (classify_by_content_type ul p) (classify_by_signature ul p)
                (decide_extension_of p).
Proof. destruct p; reflexivity. Qed.

(** What the spreadsheet-only pipeline decides once the classifier has
    answered. *)
Lemma spreadsheet_decide_extension (content : bytes) (sig header : str) :
  get_other_controls.detect_file_type_from_content content = Return sig ->
  get_other_controls.decide_extension sig header = sig
  /\ (sig = u ".xls" \/ sig = u ".xlsx").
Proof.
  intros Hsig.
  destruct (spreadsheet_detect_range content) as [H | H];
    rewrite H in Hsig; injection Hsig as <-; split;
    try reflexivity; [left | right]; reflexivity.
Qed.

Lemma general_decide_extension (sig header : str) :
  get_investments_data.decide_extension sig header =
  if bool_decide (sig = u ".file")
  then (if bool_decide (header = u ".file") then u ".file" else header)
  else sig.
Proof.
  unfold get_investments_data.decide_extension.
  destruct (bool_decide (sig = u ".file"));
    destruct (bool_decide (header = u ".file")); reflexivity.
Qed.

(** C9. In both scripts, when the exchange succeeds and the body yields
    no chunk, the [try] body raises [UnboundLocalError] at the read of
    [extension_from_content]; [download_file] returns [(False, None)] and
    the filesystem is as it was. *)
Theorem C9_empty_body_is_failure
    (ul : str -> N -> str -> str) (p : profile)
    (w : world) (url base_filename : str) (fs : filesystem) (r : response) :
  requests_get w url = Return r ->
  raise_for_status r = Return tt ->
  body r = [] ->
  body_error r = None ->
  download_file_try (classify_by_content_type ul p)
    (classify_by_signature ul p) (decide_extension_of p)
    w url base_filename fs = (Raise UnboundLocalError, fs)
  /\ fetch_and_save ul p w url base_filename fs = (Return (false, None), fs).
Proof.
  intros Hget Hstatus Hbody Herr. split.
  - apply (download_file_try_no_chunk _ _ _ _ _ _ _ r); assumption.
  - rewrite fetch_and_save_unfold, download_file_spec.
    rewrite Hget, Hstatus, Hbody. reflexivity.
Qed.

Lemma C9_empty_body_is_failure_witness :
  let r := {| status_code := 200; content_type := Some (u "text/csv");
              body := []; body_error := None |} in
  fetch_and_save ascii_table general (serving r) (u "http://host/data")
    (u "2020_Investments") ∅ = (Return (false, None), ∅)
  /\ fetch_and_save ascii_table spreadsheet_only (serving r)
       (u "http://host/data") (u "Akmola_GRP") ∅ = (Return (false, None), ∅).
Proof.
  intros r. split.
  - apply (C9_empty_body_is_failure ascii_table general (serving r)
             (u "http://host/data") (u "2020_Investments") ∅ r);
      reflexivity.
  - apply (C9_empty_body_is_failure ascii_table spreadsheet_only (serving r)
             (u "http://host/data") (u "Akmola_GRP") ∅ r); reflexivity.
Defined.

(** C1, as amended. When the exchange succeeds with a first chunk that
    the signature classifier labels [sig], the header being labelled
    [meta], and nothing fails on the disk, the file is saved under the
    base name followed by: in the general profile, [sig] unless it is
    ['.file'], else [meta] unless it is ['.file'], else ['.file']; in the
    spreadsheet-only profile, [sig], which is ['.xls'] or ['.xlsx'],
    whatever [meta] is. *)
Theorem C1_extension_precedence
    (ul : str -> N -> str -> str) (p : profile)
    (w : world) (url base_filename : str) (fs : filesystem)
    (r : response) (first : bytes) (rest : list bytes) (sig : str) :
  let meta := classify_by_content_type ul p (default [] (content_type r)) in
  let final :=
    match p with
    | general =>
        if bool_decide (sig = u ".file")
        then (if bool_decide (meta = u ".file") then u ".file" else meta)
        else sig
    | spreadsheet_only => sig
    end in
  requests_get w url = Return r ->
  raise_for_status r = Return tt ->
  body r = first :: rest ->
  body_error r = None ->
  classify_by_signature ul p first = Return sig ->
  open_error w (base_filename ++ final) = None ->
  (forall k, write_error w (base_filename ++ final) k = None) ->
  decide_extension_of p sig meta = final
  /\ (p = spreadsheet_only -> sig = u ".xls" \/ sig = u ".xlsx")
  /\ fetch_and_save ul p w url base_filename fs
     = (Return (true, Some (base_filename ++ final)),
        <[base_filename ++ final := concat (body r)]> fs).
Proof.
  intros meta final Hget Hstatus Hbody Herr Hsig Hopen Hwrite.
  assert (Hfinal : decide_extension_of p sig meta = final).
  { destruct p; cbn [decide_extension_of].
    - apply general_decide_extension.
    - apply (spreadsheet_decide_extension first). exact Hsig. }
  split; [exact Hfinal|]. split.
  - intros ->. apply (spreadsheet_decide_extension first sig meta). exact Hsig.
  - rewrite fetch_and_save_unfold.
    pose proof (download_file_saves (classify_by_content_type ul p)
                  (classify_by_signature ul p) (decide_extension_of p)
                  w url base_filename fs r first rest sig) as Hrun.
    cbn zeta in Hrun. fold meta in Hrun. rewrite Hfinal in Hrun.
    apply Hrun; assumption.
Qed.

Lemma C1_extension_precedence_witness :
  let r := {| status_code := 200;
              content_type := Some (u "application/octet-stream");
              body := [b "%PDF-1.4 "; b "more"]; body_error := None |} in
  fetch_and_save ascii_table general (serving r) (u "http://host/report")
    (u "report") ∅
  = (Return (true, Some (u "report.pdf")),
     <[u "report.pdf" := b "%PDF-1.4 more"]> ∅).
Proof.
  intros r.
  apply (C1_extension_precedence ascii_table general (serving r)
           (u "http://host/report") (u "report") ∅ r
           (b "%PDF-1.4 ") [b "more"] (u ".pdf"));
    reflexivity.
Defined.

(** C1, the claim as stated fails in the spreadsheet-only profile: the
    signature classifier returns the sentinel ['.xlsx'] for a chunk
    without signature, the header is labelled ['.xls'], which is not the
    sentinel, and the file is saved as ['.xlsx']. *)
Lemma C1_counterexample :
  let r := {| status_code := 200;
              content_type := Some (u "application/vnd.ms-excel");
              body := [b "region,value"]; body_error := None |} in
  classify_by_signature ascii_table spreadsheet_only (b "region,value")
  = Return (fallback spreadsheet_only)
  /\ classify_by_content_type ascii_table spreadsheet_only
       (u "application/vnd.ms-excel") = u ".xls"
  /\ u ".xls" <> fallback spreadsheet_only
  /\ fst (fetch_and_save ascii_table spreadsheet_only (serving r)
            (u "http://host/grp") (u "Akmola_GRP") ∅)
     = Return (true, Some (u "Akmola_GRP.xlsx")).
Proof. vm_compute. repeat split. discriminate. Qed.

(** C10. The spreadsheet-only classifier answers ['.xls'] or ['.xlsx'] on
    every buffer, and a download of that script that succeeds is saved
    under the base name followed by ['.xls'] or ['.xlsx'], never by one of
    the other labels of the metadata table. *)
Theorem C10_spreadsheet_labels_only
    (ul : str -> N -> str -> str)
    (w : world) (url base_filename : str) (fs fs' : filesystem)
    (final_filename : str) :
  (forall content : bytes,
      get_other_controls.detect_file_type_from_content content
      = Return (u ".xls")
      \/ get_other_controls.detect_file_type_from_content content
         = Return (u ".xlsx"))
  /\ (get_other_controls.download_file ul w url base_filename fs
      = (Return (true, Some final_filename), fs') ->
      (final_filename = base_filename ++ u ".xls"
       \/ final_filename = base_filename ++ u ".xlsx")
      /\ forall ext, In ext [u ".csv"; u ".json"; u ".txt"; u ".xml"] ->
                     final_filename <> base_filename ++ ext).
Proof.
  split; [apply spreadsheet_detect_range|].
  unfold get_other_controls.download_file. rewrite download_file_spec.
  intros Hrun.
  assert (Hname : final_filename = base_filename ++ u ".xls"
                  \/ final_filename = base_filename ++ u ".xlsx").
  { destruct (requests_get w url) as [r|]; [|discriminate].
    destruct (raise_for_status r); [|discriminate].
    destruct (body r) as [|first rest]; [discriminate|].
    destruct (get_other_controls.detect_file_type_from_content first)
      as [sig|] eqn:Hsig; [|discriminate].
    destruct (body_error r); [discriminate|]. cbn zeta in Hrun.
    destruct (spreadsheet_decide_extension first sig
                (get_other_controls.get_file_extension_from_content_type ul
                   (default [] (content_type r))) Hsig) as [Hdec Hrange].
    rewrite Hdec in Hrun.
    destruct (open_error w _); [discriminate|].
    destruct (first_write_error w _ 0 _) as [[j e]|]; [discriminate|].
    injection Hrun as <- _.
    destruct Hrange as [-> | ->]; [left | right]; reflexivity. }
  split; [exact Hname|].
  intros ext Hext Heq.
  destruct Hname as [-> | ->]; apply app_inv_head in Heq; subst ext;
    vm_compute in Hext; intuition discriminate.
Qed.

Lemma C10_spreadsheet_labels_only_witness :
  let r := {| status_code := 200; content_type := Some (u "text/csv");
              body := [b "region,value"]; body_error := None |} in
  u "Akmola_GRP.xlsx" = u "Akmola_GRP" ++ u ".xls"
  \/ u "Akmola_GRP.xlsx" = u "Akmola_GRP" ++ u ".xlsx".
Proof.
  intros r.
  apply (C10_spreadsheet_labels_only ascii_table (serving r)
           (u "http://host/grp") (u "Akmola_GRP") ∅
           (<[u "Akmola_GRP.xlsx" := b "region,value"]> ∅)
           (u "Akmola_GRP.xlsx")).
  reflexivity.
Defined.







(** ** Textual sniffing in the general profile *)

Lemma general_detect_no_signature ul (content : bytes) (decoded : str) :
  content <> [] ->
  (forall magic ext,
      In (magic, ext) get_investments_data.magic_numbers ->
      startswith content magic = false) ->
  decode ignore (take 1024 content) = Return decoded ->
  get_investments_data.detect_file_type_from_content ul content
  = Return (get_investments_data.sniff_text (lower ul decoded)).
Proof.
  intros Hne Hno Hdec.
  unfold get_investments_data.detect_file_type_from_content.
  rewrite bool_decide_eq_false_2 by exact Hne.
  rewrite (general_check_magic_numbers_none content _ Hno), Hdec.
  reflexivity.
Qed.

Lemma sniff_text_brace ul (text : str) :
  get_investments_data.sniff_text (lower ul (0x7B :: text)) = u ".json".
Proof. rewrite lower_head by reflexivity. reflexivity. Qed.

(** C8. On a non-empty buffer that no signature of the table is a prefix
    of, the general classifier decodes the first 1024 bytes, skipping what
    does not decode, lower-cases the text and answers ['.xml'] when it
    starts with ["<?xml"], else ['.json'] when it starts with ["{"] or
    ["["], else ['.csv'] when it holds a comma and a newline, else
    ['.file']. When the decoded text starts with ["{"] the answer is
    ['.json'], and a download whose first chunk is such a buffer, nothing
    failing, is saved as the base name followed by ['.json']. *)
Theorem C8_textual_sniffing_order
    (ul : str -> N -> str -> str) (content : bytes) :
  content <> [] ->
  (forall magic ext,
      In (magic, ext) get_investments_data.magic_numbers ->
      startswith content magic = false) ->
  exists decoded : str,
    decode ignore (take 1024 content) = Return decoded
    /\ (let content_str := lower ul decoded in
        get_investments_data.detect_file_type_from_content ul content =
        Return
          (if startswith content_str (u "<?xml") then u ".xml"
           else if startswith content_str (u "{")
                   || startswith content_str (u "[") then u ".json"
           else if contains (u ",") content_str
                   && contains [0x0A] content_str then u ".csv"
           else u ".file"))
    /\ (forall text : str, decoded = 0x7B :: text ->
        get_investments_data.detect_file_type_from_content ul content
        = Return (u ".json")
        /\ forall (w : world) (url base_filename : str) (fs : filesystem)
                  (r : response) (rest : list bytes),
             requests_get w url = Return r ->
             raise_for_status r = Return tt ->
             body r = content :: rest ->
             body_error r = None ->
             open_error w (base_filename ++ u ".json") = None ->
             (forall k, write_error w (base_filename ++ u ".json") k = None) ->
             get_investments_data.download_file ul w url base_filename fs
             = (Return (true, Some (base_filename ++ u ".json")),
                <[base_filename ++ u ".json" := concat (body r)]> fs)).
Proof.
  intros Hne Hno.
  destruct (utf8_decode_ignore_total (take 1024 content)) as [decoded Hdec].
  exists decoded. split; [exact Hdec|].
  pose proof (general_detect_no_signature ul content decoded Hne Hno Hdec)
    as Hdetect.
  split; [exact Hdetect|].
  intros text ->. rewrite sniff_text_brace in Hdetect.
  split; [exact Hdetect|].
  intros w url base_filename fs r rest Hget Hstatus Hbody Herr Hopen Hwrite.
  unfold get_investments_data.download_file.
  pose proof (download_file_saves
                (get_investments_data.get_file_extension_from_content_type ul)
                (get_investments_data.detect_file_type_from_content ul)
                get_investments_data.decide_extension
                w url base_filename fs r content rest (u ".json")) as Hrun.
  cbn zeta in Hrun.
  change (get_investments_data.decide_extension (u ".json") ?h)
    with (u ".json") in Hrun.
  apply Hrun; assumption.
Qed.

Lemma C8_textual_sniffing_order_witness :
  get_investments_data.detect_file_type_from_content ascii_table
    (xff :: b "{years: [2019, 2020]}") = Return (u ".json").
Proof.
  destruct (C8_textual_sniffing_order ascii_table
              (xff :: b "{years: [2019, 2020]}"))
    as (decoded & Hdec & _ & Hjson).
  - discriminate.
  - intros magic ext Hin. vm_compute in Hin.
    repeat (destruct Hin as [[= <- <-] | Hin]; [reflexivity|]).
    destruct Hin.
  - vm_compute in Hdec. injection Hdec as <-.
    apply (Hjson _ eq_refl).
Defined.

(** ** The filename sanitizer *)

Lemma Forall_drop_while {A} (P : A -> Prop) (p : A -> bool) (s : list A) :
  Forall P s -> Forall P (drop_while p s).
Proof.
  induction 1 as [|c s Hc Hs IH]; simpl; [constructor|].
  destruct (p c); [exact IH | constructor; assumption].
Qed.

Lemma Forall_strip_with {A} (P : A -> Prop) (p : A -> bool) (s : list A) :
  Forall P s -> Forall P (strip_with p s).
Proof.
  intros Hs. unfold strip_with, rstrip_with, lstrip_with.
  apply Forall_rev, Forall_drop_while, Forall_rev, Forall_drop_while, Hs.
Qed.

Lemma Forall_replace (P : N -> Prop) (old new : N) (s : str) :
  P new -> Forall P s -> Forall P (replace old new s).
Proof.
  intros Hnew. induction 1 as [|c s Hc Hs IH]; simpl; constructor;
    [destruct (bool_decide (c = old)); assumption | exact IH].
Qed.

Lemma replace_removes (old new : N) (s : str) :
  new <> old -> Forall (fun c => c <> old) (replace old new s).
Proof.
  intros Hne. induction s as [|c s IH]; simpl; constructor; [|exact IH].
  destruct (bool_decide (c = old)) eqn:E; [exact Hne|].
  apply bool_decide_eq_false_1 in E. exact E.
Qed.

Lemma Forall_replace_all (P : N -> Prop) (new : N) (chars s : str) :
  P new -> Forall P s ->
  Forall P (fold_left (fun filename char => replace char new filename)
                      chars s).
Proof.
  intros Hnew. revert s. induction chars as [|ch chars IH]; intros s Hs;
    simpl; [exact Hs|].
  apply IH, Forall_replace; assumption.
Qed.

Lemma replace_all_removes (new : N) (chars s : str) (c : N) :
  In c chars -> ~ In new chars ->
  Forall (fun x => x <> c)
         (fold_left (fun filename char => replace char new filename)
                    chars s).
Proof.
  revert s. induction chars as [|ch chars IH]; intros s Hc Hnew;
    [destruct Hc|].
  simpl. destruct Hc as [-> | Hc].
  - apply Forall_replace_all; [|apply replace_removes];
      intros ->; apply Hnew; left; reflexivity.
  - apply IH; [exact Hc|]. intros H. apply Hnew. right. exact H.
Qed.

(** What the sanitizer does achieve: the result has at most 200
    characters and none of the characters it replaces. *)
Lemma sanitize_filename_length_and_characters (filename : str) :
  (length (get_other_controls.sanitize_filename filename) <= 200)%nat
  /\ forall c, In c get_other_controls.invalid_chars ->
               ~ In c (get_other_controls.sanitize_filename filename).
Proof.
  unfold get_other_controls.sanitize_filename. split.
  - destruct (200 <? _)%nat eqn:E.
    + rewrite length_take. lia.
    + apply Nat.ltb_ge in E. exact E.
  - intros c Hc Hin.
    assert (H : Forall (fun x => x <> c)
                  (get_other_controls.sanitize_filename filename)).
    { unfold get_other_controls.sanitize_filename.
      destruct (200 <? _)%nat; [apply Forall_take|];
        apply Forall_strip_with, replace_all_removes; try exact Hc;
        vm_compute; intuition discriminate. }
    exact (proj1 (List.Forall_forall _ _) H c Hin eq_refl).
Qed.

(** C6. The sanitizer trims before it truncates, and trims spaces and
    dots only. A name of 201 characters whose 200th is a dot comes back
    with 200 characters, the last one a dot; a name that starts with a tab
    comes back with the tab. *)
Theorem C6_sanitize_filename_not_trimmed :
  let long_name := replicate 199 0x61 ++ u ".b" in
  get_other_controls.sanitize_filename long_name
  = replicate 199 0x61 ++ u "."
  /\ length (get_other_controls.sanitize_filename long_name) = 200%nat
  /\ last (get_other_controls.sanitize_filename long_name) = Some 0x2E
  /\ get_other_controls.sanitize_filename (0x09 :: u "GRP_2020")
     = 0x09 :: u "GRP_2020"
  /\ isspace 0x09 = true.
Proof. vm_compute. repeat split. Qed.

(** * Further properties of the two scripts *)

(** ** Signatures *)

(** Every signature of the general table other than [50 4B 03 04] decides
    the label by itself, whatever follows it. *)
Theorem general_signature_labels
    (ul : str -> N -> str -> str) (rest : bytes) :
  let detect := get_investments_data.detect_file_type_from_content ul in
  detect ([x50; x4b; x05; x06] ++ rest) = Return (u ".zip")
  /\ detect ([x50; x4b; x07; x08] ++ rest) = Return (u ".zip")
  /\ detect ([x52; x61; x72; x21] ++ rest) = Return (u ".rar")
  /\ detect ([x37; x7a; xbc; xaf; x27; x1c] ++ rest) = Return (u ".7z")
  /\ detect ([x25; x50; x44; x46] ++ rest) = Return (u ".pdf")
  /\ detect ([xd0; xcf; x11; xe0; xa1; xb1; x1a; xe1] ++ rest)
     = Return (u ".xls")
  /\ detect ([x1f; x8b] ++ rest) = Return (u ".gz")
  /\ detect ([x42; x5a; x68] ++ rest) = Return (u ".bz2").
Proof. repeat split; reflexivity. Qed.

Lemma general_check_magic_numbers_range (content : bytes) items :
  match get_investments_data.check_magic_numbers content items with
  | None => True
  | Some ext =>
      In ext [u ".xlsx"; u ".docx"; u ".zip"] \/ In ext (map snd items)
  end.
Proof.
  induction items as [|[magic ext] items IH];
    cbn [get_investments_data.check_magic_numbers map snd]; [exact I|].
  destruct (startswith content magic).
  - repeat match goal with
           | |- context [if ?c then _ else _] => destruct c
           end;
      try (left; simpl; tauto); right; left; reflexivity.
  - destruct (get_investments_data.check_magic_numbers content items);
      [|exact I].
    destruct IH as [H | H]; [left; exact H | right; right; exact H].
Qed.

Lemma general_detect_range (ul : str -> N -> str -> str) (content : bytes) :
  exists label,
    get_investments_data.detect_file_type_from_content ul content
    = Return label
    /\ In label [u ".file"; u ".xlsx"; u ".docx"; u ".zip"; u ".rar";
                 u ".7z"; u ".pdf"; u ".xls"; u ".gz"; u ".bz2";
                 u ".xml"; u ".json"; u ".csv"].
Proof.
  unfold get_investments_data.detect_file_type_from_content.
  destruct (bool_decide (content = []));
    [eexists; split; [reflexivity | left; reflexivity]|].
  pose proof (general_check_magic_numbers_range content
                get_investments_data.magic_numbers) as H.
  destruct (get_investments_data.check_magic_numbers content
              get_investments_data.magic_numbers) as [ext|].
  - exists ext. split; [reflexivity|].
    destruct H as [H | H]; vm_compute in H; vm_compute; intuition.
  - unfold decode.
    destruct (utf8_decode_ignore_total (take 1024 content)) as [t ->].
    cbn [rbind]. eexists. split; [reflexivity|].
    unfold get_investments_data.sniff_text.
    repeat match goal with
           | |- context [if ?c then _ else _] => destruct c
           end; vm_compute; intuition.
Qed.

(** The general classifier answers with one of thirteen labels; ['.bin']
    and ['.txt'], which only the header table holds, are not among
    them. *)
Theorem general_signature_label_range
    (ul : str -> N -> str -> str) (content : bytes) :
  exists label,
    get_investments_data.detect_file_type_from_content ul content
    = Return label
    /\ In label [u ".file"; u ".xlsx"; u ".docx"; u ".zip"; u ".rar";
                 u ".7z"; u ".pdf"; u ".xls"; u ".gz"; u ".bz2";
                 u ".xml"; u ".json"; u ".csv"]
    /\ label <> u ".bin" /\ label <> u ".txt".
Proof.
  destruct (general_detect_range ul content) as (label & Hdet & Hin).
  exists label.
  split; [exact Hdet|]. split; [exact Hin|].
  split; intros ->; vm_compute in Hin; intuition discriminate.
Qed.

Lemma startswith_take {A} `{EqDecision A} (p s : list A) (n : nat) :
  (length p <= n)%nat -> startswith (take n s) p = startswith s p.
Proof.
  revert s n. induction p as [|x p IH]; intros s n Hn; [reflexivity|].
  destruct n as [|n]; [simpl in Hn; lia|].
  destruct s as [|y s]; [reflexivity|].
  cbn [take startswith]. rewrite IH by (simpl in Hn; lia). reflexivity.
Qed.

Lemma take_nil_iff {A} (s : list A) (n : nat) :
  bool_decide (take (S n) s = []) = bool_decide (s = []).
Proof. destruct s; reflexivity. Qed.

Lemma general_check_magic_numbers_take (content : bytes) items :
  forallb (fun kv => (length (fst kv) <=? 1024)%nat) items = true ->
  get_investments_data.check_magic_numbers (take 1024 content) items
  = get_investments_data.check_magic_numbers content items.
Proof.
  induction items as [|[magic ext] items IH]; intros Hlen; [reflexivity|].
  cbn [forallb fst] in Hlen. apply andb_true_iff in Hlen as [Hm Hlen].
  apply Nat.leb_le in Hm.
  cbn [get_investments_data.check_magic_numbers].
  rewrite (startswith_take magic content 1024 Hm), take_take, Nat.min_id.
  rewrite (IH Hlen). reflexivity.
Qed.

Lemma spreadsheet_check_magic_numbers_take (content : bytes) items :
  forallb (fun kv => (length (fst kv) <=? 1024)%nat) items = true ->
  get_other_controls.check_magic_numbers (take 1024 content) items
  = get_other_controls.check_magic_numbers content items.
Proof.
  induction items as [|[magic ext] items IH]; intros Hlen; [reflexivity|].
  cbn [forallb fst] in Hlen. apply andb_true_iff in Hlen as [Hm Hlen].
  apply Nat.leb_le in Hm.
  cbn [get_other_controls.check_magic_numbers].
  rewrite (startswith_take magic content 1024 Hm), take_take, Nat.min_id.
  rewrite (IH Hlen). reflexivity.
Qed.

(** In both scripts the label depends on the first 1024 bytes of the
    buffer only. *)
Theorem signature_reads_first_1024_bytes
    (ul : str -> N -> str -> str) (p : profile) (content : bytes) :
  classify_by_signature ul p (take 1024 content)
  = classify_by_signature ul p content.
Proof.
  destruct p; cbn [classify_by_signature].
  - unfold get_investments_data.detect_file_type_from_content.
    rewrite take_nil_iff.
    rewrite general_check_magic_numbers_take by reflexivity.
    rewrite take_take, Nat.min_id. reflexivity.
  - unfold get_other_controls.detect_file_type_from_content.
    rewrite take_nil_iff.
    rewrite spreadsheet_check_magic_numbers_take by reflexivity.
    reflexivity.
Qed.

(** The spreadsheet-only classifier answers ['.xls'] exactly on the
    buffers that begin with the compound-document signature, and ['.xlsx']
    on all others: the ZIP signatures and the interior markers make no
    difference to its answer. *)
Theorem spreadsheet_signature_label (content : bytes) :
  get_other_controls.detect_file_type_from_content content =
  Return (if startswith content [xd0; xcf; x11; xe0; xa1; xb1; x1a; xe1]
          then u ".xls" else u ".xlsx").
Proof.
  unfold get_other_controls.detect_file_type_from_content.
  destruct (bool_decide (content = [])) eqn:E.
  - apply bool_decide_eq_true_1 in E. subst content. reflexivity.
  - change get_other_controls.magic_numbers with
      [ ([xd0; xcf; x11; xe0; xa1; xb1; x1a; xe1], u ".xls");
        ([x50; x4b; x03; x04], u ".xlsx");
        ([x50; x4b; x05; x06], u ".xlsx");
        ([x50; x4b; x07; x08], u ".xlsx") ].
    cbn [get_other_controls.check_magic_numbers].
    destruct (startswith content [xd0; xcf; x11; xe0; xa1; xb1; x1a; xe1]);
      [reflexivity|].
    repeat match goal with
           | |- context [if ?c then _ else _] => destruct c
           end; reflexivity.
Qed.

(** ** Declared content types *)

Lemma dict_get_cases {V} (d : list (str * V)) (k : str) (default : V) :
  (dict_get d k default = default /\ forall v, ~ In (k, v) d)
  \/ In (k, dict_get d k default) d.
Proof.
  induction d as [|[k' v'] d IH]; simpl.
  - left. split; [reflexivity | intros v []].
  - destruct (bool_decide (k' = k)) eqn:E.
    + apply bool_decide_eq_true_1 in E. subst k'. right. left. reflexivity.
    + apply bool_decide_eq_false_1 in E.
      destruct IH as [[Hd Hno] | Hin]; [left | right; right; exact Hin].
      split; [exact Hd|].
      intros v [[= Hk _] | Hin]; [exact (E Hk) | exact (Hno v Hin)].
Qed.

(** In both scripts the metadata classifier answers the profile's
    fallback label when the cleaned header is no key of the table, in
    particular for an empty header, and otherwise the label the table
    lists for that key; it never answers anything else. *)
Theorem content_type_label_cases
    (ul : str -> N -> str -> str) (p : profile) (content_type : str) :
  let clean_content_type :=
    lower ul (strip (split_first 0x3B content_type)) in
  classify_by_content_type ul p [] = fallback p
  /\ ((classify_by_content_type ul p content_type = fallback p
       /\ forall ext, ~ In (clean_content_type, ext) (content_type_table p))
      \/ In (clean_content_type, classify_by_content_type ul p content_type)
            (content_type_table p)).
Proof.
  intros clean. split; [destruct p; reflexivity|].
  destruct p; cbn [classify_by_content_type content_type_table fallback];
    unfold get_investments_data.get_file_extension_from_content_type,
           get_other_controls.get_file_extension_from_content_type;
    cbn zeta; fold clean; apply dict_get_cases.
Qed.

(** ** What a call does to the filesystem *)

(** Case analysis of a call along the closed form of [download_file]. *)
Ltac pipeline_cases ul p w url :=
  rewrite fetch_and_save_unfold, !download_file_spec;
  destruct (requests_get w url) as [r|e];
  [destruct (raise_for_status r) as [[]|e];
   [destruct (body r) as [|first rest];
    [|destruct (classify_by_signature ul p first) as [sig|e];
      [destruct (body_error r) as [e|];
       [|cbn zeta; destruct (open_error w _) as [e|];
         [|destruct (first_write_error w _ 0 _) as [[j e]|]]]|]]|]|].


(** Calling [download_file] a second time in the same world, on the
    filesystem the first call left, returns the same outcome and leaves
    that filesystem as it is: the call overwrites, it never appends and
    never makes a second file. *)
Theorem fetch_and_save_twice
    (ul : str -> N -> str -> str) (p : profile)
    (w : world) (url base_filename : str) (fs : filesystem) :
  let run := fetch_and_save ul p w url base_filename fs in
  fetch_and_save ul p w url base_filename (snd run) = run.
Proof.
  cbn zeta. pipeline_cases ul p w url;
    cbn [snd]; rewrite ?insert_insert_eq; reflexivity.
Qed.

(** A call changes at most one file, and the name of that file begins
    with the base name given: every other file is as it was, whether the
    call succeeds or fails. *)
Theorem fetch_and_save_frame
    (ul : str -> N -> str -> str) (p : profile)
    (w : world) (url base_filename : str) (fs : filesystem) :
  let fs' := snd (fetch_and_save ul p w url base_filename fs) in
  (exists ext : str,
      forall name : str,
        name <> base_filename ++ ext -> fs' !! name = fs !! name)
  /\ (forall name : str,
        ~ base_filename `prefix_of` name -> fs' !! name = fs !! name).
Proof.
  intros fs'.
  assert (Hone : exists ext : str,
             forall name : str,
               name <> base_filename ++ ext -> fs' !! name = fs !! name).
  { subst fs'. pipeline_cases ul p w url; cbn [snd];
      try (exists []; intros; reflexivity);
      eexists; intros name Hne; apply lookup_insert_ne;
      intros Heq; apply Hne; symmetry; exact Heq. }
  split; [exact Hone|].
  destruct Hone as [ext Hone]. intros name Hname. apply Hone.
  intros ->. apply Hname. exists ext. reflexivity.
Qed.

Lemma fetch_and_save_frame_witness :
  let r := {| status_code := 200; content_type := None;
              body := [b "%PDF-1.4 "; b "more"]; body_error := None |} in
  let fs : filesystem := <[u "2019_Investments.pdf" := b "%PDF-1.3 old"]> ∅ in
  snd (fetch_and_save ascii_table general (serving r)
         (u "http://host/report") (u "2020_Investments") fs)
  !! u "2019_Investments.pdf" = Some (b "%PDF-1.3 old").
Proof.
  intros r fs.
  rewrite (proj2 (fetch_and_save_frame ascii_table general (serving r)
                    (u "http://host/report") (u "2020_Investments") fs)).
  - reflexivity.
  - intros [k Hk]. vm_compute in Hk. discriminate Hk.
Defined.

Lemma general_content_type_range (ul : str -> N -> str -> str) (s : str) :
  In (get_investments_data.get_file_extension_from_content_type ul s)
     [u ".file"; u ".pdf"; u ".xls"; u ".xlsx"; u ".zip"; u ".rar"; u ".7z";
      u ".bin"; u ".csv"; u ".json"; u ".txt"; u ".xml"].
Proof.
  unfold get_investments_data.get_file_extension_from_content_type.
  cbn zeta.
  destruct (dict_get_cases get_investments_data.content_type_map
              (lower ul (strip (split_first 0x3B s))) (u ".file"))
    as [[-> _] | Hin]; [left; reflexivity|].
  apply (in_map snd) in Hin. cbn [snd] in Hin.
  generalize dependent (dict_get get_investments_data.content_type_map
                          (lower ul (strip (split_first 0x3B s))) (u ".file")).
  intros ext Hin. vm_compute in Hin. vm_compute. intuition.
Qed.

(** A download of the general script that succeeds is saved under the
    base name followed by one of fifteen extensions, each beginning with a
    dot: the name is never the bare base name. *)
Theorem general_saved_name
    (ul : str -> N -> str -> str)
    (w : world) (url base_filename : str) (fs fs' : filesystem)
    (final_filename : str) :
  get_investments_data.download_file ul w url base_filename fs
  = (Return (true, Some final_filename), fs') ->
  exists ext : str,
    final_filename = base_filename ++ ext
    /\ In ext [u ".file"; u ".xlsx"; u ".docx"; u ".zip"; u ".rar"; u ".7z";
               u ".pdf"; u ".xls"; u ".gz"; u ".bz2"; u ".xml"; u ".json";
               u ".csv"; u ".bin"; u ".txt"]
    /\ head ext = Some 0x2E
    /\ final_filename <> base_filename.
Proof.
  unfold get_investments_data.download_file. rewrite download_file_spec.
  intros Hrun.
  assert (Hext : exists ext : str,
            final_filename = base_filename ++ ext
            /\ In ext [u ".file"; u ".xlsx"; u ".docx"; u ".zip"; u ".rar";
                       u ".7z"; u ".pdf"; u ".xls"; u ".gz"; u ".bz2";
                       u ".xml"; u ".json"; u ".csv"; u ".bin"; u ".txt"]).
  { destruct (requests_get w url) as [r|]; [|discriminate].
    destruct (raise_for_status r); [|discriminate].
    destruct (body r) as [|first rest]; [discriminate|].
    destruct (general_detect_range ul first) as (sig & Hsig & Hin).
    rewrite Hsig in Hrun.
    destruct (body_error r); [discriminate|]. cbn zeta in Hrun.
    rewrite general_decide_extension in Hrun.
    pose proof (general_content_type_range ul (default [] (content_type r)))
      as Hmeta.
    generalize dependent
      (get_investments_data.get_file_extension_from_content_type ul
         (default [] (content_type r))).
    intros meta Hrun Hmeta.
    destruct (open_error w _); [discriminate|].
    destruct (first_write_error w _ 0 _) as [[j e]|]; [discriminate|].
    injection Hrun as <- _. eexists. split; [reflexivity|].
    destruct (bool_decide (sig = u ".file"));
      [destruct (bool_decide (_ = u ".file")); [left; reflexivity|]|].
    - vm_compute in Hmeta. vm_compute. intuition.
    - vm_compute in Hin. vm_compute. intuition. }
  destruct Hext as (ext & -> & Hin). exists ext.
  split; [reflexivity|]. split; [exact Hin|].
  assert (Hhead : head ext = Some 0x2E).
  { vm_compute in Hin.
    repeat (destruct Hin as [<- | Hin]; [reflexivity|]). destruct Hin. }
  split; [exact Hhead|].
  intros Heq. rewrite <- (app_nil_r base_filename) in Heq at 2.
  apply app_inv_head in Heq. subst ext. discriminate Hhead.
Qed.

Lemma general_saved_name_witness :
  exists ext : str, u "report.pdf" = u "report" ++ ext /\ head ext = Some 0x2E.
Proof.
  destruct (general_saved_name ascii_table
              (serving {| status_code := 200;
                          content_type := Some (u "application/octet-stream");
                          body := [b "%PDF-1.4 "; b "more"];
                          body_error := None |})
              (u "http://host/report") (u "report") ∅
              (<[u "report.pdf" := b "%PDF-1.4 more"]> ∅)
              (u "report.pdf") eq_refl)
    as (ext & Hname & _ & Hhead & _).
  exists ext. split; assumption.
Defined.

(** ** More on the filename sanitizer *)

Lemma drop_while_head {A} (p : A -> bool) (s : list A) (c : A) :
  head (drop_while p s) = Some c -> p c = false.
Proof.
  induction s as [|x s IH]; simpl; [discriminate|].
  destruct (p x) eqn:E; [exact IH|].
  simpl. intros [= <-]. exact E.
Qed.

Lemma drop_while_suffix {A} (p : A -> bool) (s : list A) :
  exists k, s = k ++ drop_while p s.
Proof.
  induction s as [|x s [k IH]]; simpl; [exists []; reflexivity|].
  destruct (p x); [|exists []; reflexivity].
  exists (x :: k). simpl. f_equal. exact IH.
Qed.

Lemma drop_while_id {A} (p : A -> bool) (s : list A) :
  (forall c, head s = Some c -> p c = false) -> drop_while p s = s.
Proof.
  destruct s as [|x s]; [reflexivity|].
  intros H. simpl. rewrite (H x eq_refl). reflexivity.
Qed.

Lemma length_drop_while {A} (p : A -> bool) (s : list A) :
  (length (drop_while p s) <= length s)%nat.
Proof.
  induction s as [|x s IH]; simpl; [lia|]. destruct (p x); simpl; lia.
Qed.

Lemma last_rev {A} (s : list A) : last (rev s) = head s.
Proof. destruct s as [|x s]; [reflexivity|]. simpl. apply last_snoc. Qed.

Lemma head_rev {A} (s : list A) : head (rev s) = last s.
Proof. rewrite <- (rev_involutive s) at 2. symmetry. apply last_rev. Qed.

Lemma rstrip_with_prefix {A} (p : A -> bool) (s : list A) :
  exists k, s = rstrip_with p s ++ k.
Proof.
  unfold rstrip_with.
  destruct (drop_while_suffix p (rev s)) as [k Hk].
  exists (rev k). rewrite <- rev_app_distr, <- Hk, rev_involutive.
  reflexivity.
Qed.

Lemma strip_with_head {A} (p : A -> bool) (s : list A) (c : A) :
  head (strip_with p s) = Some c -> p c = false.
Proof.
  unfold strip_with, lstrip_with. intros Hc.
  apply (drop_while_head p s).
  destruct (rstrip_with_prefix p (drop_while p s)) as [k Hk].
  rewrite Hk. destruct (rstrip_with p (drop_while p s)); [discriminate|].
  exact Hc.
Qed.

Lemma strip_with_last {A} (p : A -> bool) (s : list A) (c : A) :
  last (strip_with p s) = Some c -> p c = false.
Proof.
  unfold strip_with, rstrip_with. rewrite last_rev. apply drop_while_head.
Qed.

Lemma strip_with_id {A} (p : A -> bool) (s : list A) :
  (forall c, head s = Some c -> p c = false) ->
  (forall c, last s = Some c -> p c = false) ->
  strip_with p s = s.
Proof.
  intros Hh Hl. unfold strip_with, rstrip_with, lstrip_with.
  rewrite (drop_while_id p s Hh).
  rewrite drop_while_id; [apply rev_involutive|].
  intros c. rewrite head_rev. apply Hl.
Qed.

Lemma length_strip_with {A} (p : A -> bool) (s : list A) :
  (length (strip_with p s) <= length s)%nat.
Proof.
  unfold strip_with, rstrip_with, lstrip_with.
  rewrite length_rev.
  pose proof (length_drop_while p (rev (drop_while p s))) as H1.
  rewrite length_rev in H1.
  pose proof (length_drop_while p s). lia.
Qed.

Lemma length_replace_all (new : N) (chars s : str) :
  length (fold_left (fun filename char => replace char new filename) chars s)
  = length s.
Proof.
  revert s. induction chars as [|ch chars IH]; intros s; simpl;
    [reflexivity|].
  rewrite IH. unfold replace. apply length_map.
Qed.

Lemma replace_all_id (new : N) (chars s : str) :
  (forall c, In c chars -> ~ In c s) ->
  fold_left (fun filename char => replace char new filename) chars s = s.
Proof.
  induction chars as [|ch chars IH]; intros Hs; simpl; [reflexivity|].
  assert (Hid : replace ch new s = s).
  { unfold replace. rewrite <- (map_id s) at 2. apply map_ext_in.
    intros c Hc. destruct (bool_decide (c = ch)) eqn:E; [|reflexivity].
    apply bool_decide_eq_true_1 in E. subst c.
    destruct (Hs ch (or_introl eq_refl) Hc). }
  rewrite Hid. apply IH. intros c Hc. apply Hs. right. exact Hc.
Qed.

Lemma sanitize_filename_chars (filename : str) (c : N) :
  In c get_other_controls.invalid_chars ->
  ~ In c (get_other_controls.sanitize_filename filename).
Proof.
  intros Hc Hin.
  assert (H : Forall (fun x => x <> c)
                (get_other_controls.sanitize_filename filename)).
  { unfold get_other_controls.sanitize_filename.
    destruct (200 <? _)%nat; [apply Forall_take|];
      apply Forall_strip_with, replace_all_removes; try exact Hc;
      vm_compute; intuition discriminate. }
  exact (proj1 (List.Forall_forall _ _) H c Hin eq_refl).
Qed.

Lemma sanitize_filename_head (filename : str) (c : N) :
  head (get_other_controls.sanitize_filename filename) = Some c ->
  bool_decide (c ∈ u ". ") = false.
Proof.
  unfold get_other_controls.sanitize_filename.
  pose proof (strip_with_head (fun c => bool_decide (c ∈ u ". "))
    (fold_left (fun filename char => replace char 0x5F filename)
               get_other_controls.invalid_chars filename) c) as H.
  destruct (200 <? _)%nat; [|exact H].
  destruct (strip_with _ _); [discriminate | exact H].
Qed.

Lemma sanitize_filename_last (filename : str) (c : N) :
  (length filename <= 200)%nat ->
  last (get_other_controls.sanitize_filename filename) = Some c ->
  bool_decide (c ∈ u ". ") = false.
Proof.
  intros Hlen. unfold get_other_controls.sanitize_filename.
  destruct (200 <? _)%nat eqn:E;
    [|apply (strip_with_last (fun c => bool_decide (c ∈ u ". ")))].
  apply Nat.ltb_lt in E.
  pose proof (length_strip_with (fun c => bool_decide (c ∈ u ". "))
    (fold_left (fun filename char => replace char 0x5F filename)
               get_other_controls.invalid_chars filename)) as H.
  rewrite length_replace_all in H. lia.
Qed.

Lemma not_dot_or_space (c : N) :
  bool_decide (c ∈ u ". ") = false -> c <> 0x2E /\ c <> 0x20.
Proof.
  intros H. apply bool_decide_eq_false_1 in H.
  split; intros ->; apply H; vm_compute; repeat constructor.
Qed.

(** The sanitizer's result never begins with a dot or a space; and when
    the name given has at most 200 characters, so that nothing is cut
    off, it does not end with one either. *)
Theorem sanitize_filename_trimmed (filename : str) :
  (forall c, head (get_other_controls.sanitize_filename filename) = Some c ->
             c <> 0x2E /\ c <> 0x20)
  /\ ((length filename <= 200)%nat ->
      forall c, last (get_other_controls.sanitize_filename filename) = Some c ->
                c <> 0x2E /\ c <> 0x20).
Proof.
  split.
  - intros c Hc. apply not_dot_or_space, (sanitize_filename_head filename).
    exact Hc.
  - intros Hlen c Hc.
    apply not_dot_or_space, (sanitize_filename_last filename); assumption.
Qed.

Lemma sanitize_filename_trimmed_witness :
  0x41 <> 0x2E /\ 0x41 <> 0x20.
Proof.
  apply (proj2 (sanitize_filename_trimmed (u " .Akmola: GRP/2020 A. ")));
    [vm_compute; lia | reflexivity].
Defined.

Lemma sanitize_filename_clean (filename : str) :
  (forall c, In c get_other_controls.invalid_chars -> ~ In c filename) ->
  (forall c, head filename = Some c -> bool_decide (c ∈ u ". ") = false) ->
  (forall c, last filename = Some c -> bool_decide (c ∈ u ". ") = false) ->
  (length filename <= 200)%nat ->
  get_other_controls.sanitize_filename filename = filename.
Proof.
  intros Hchars Hhead Hlast Hlen.
  unfold get_other_controls.sanitize_filename.
  rewrite (replace_all_id _ _ _ Hchars).
  rewrite (strip_with_id _ _ Hhead Hlast).
  destruct (200 <? length filename)%nat eqn:E; [|reflexivity].
  apply Nat.ltb_lt in E. lia.
Qed.

(** A name of at most 200 characters with none of the nine characters,
    and with no dot or space at either end, is returned as it is; hence
    sanitizing a name of at most 200 characters a second time changes
    nothing. *)
Theorem sanitize_filename_stable (filename : str) :
  ((forall c, In c get_other_controls.invalid_chars -> ~ In c filename) ->
   (forall c, head filename = Some c -> c <> 0x2E /\ c <> 0x20) ->
   (forall c, last filename = Some c -> c <> 0x2E /\ c <> 0x20) ->
   (length filename <= 200)%nat ->
   get_other_controls.sanitize_filename filename = filename)
  /\ ((length filename <= 200)%nat ->
      get_other_controls.sanitize_filename
        (get_other_controls.sanitize_filename filename)
      = get_other_controls.sanitize_filename filename).
Proof.
  assert (Hset : forall c, c <> 0x2E /\ c <> 0x20 ->
                           bool_decide (c ∈ u ". ") = false).
  { intros c [H1 H2]. apply bool_decide_eq_false_2. intros Hin.
    vm_compute in Hin.
    apply elem_of_cons in Hin as [-> | Hin]; [congruence|].
    apply elem_of_cons in Hin as [-> | Hin]; [congruence|].
    inversion Hin. }
  split.
  - intros Hchars Hhead Hlast Hlen. apply sanitize_filename_clean; auto.
  - intros Hlen. apply sanitize_filename_clean.
    + intros c. apply sanitize_filename_chars.
    + apply sanitize_filename_head.
    + intros c. apply sanitize_filename_last. exact Hlen.
    + unfold get_other_controls.sanitize_filename.
      destruct (200 <? _)%nat eqn:E;
        [rewrite length_take; lia | apply Nat.ltb_ge in E; exact E].
Qed.

Lemma sanitize_filename_stable_witness :
  get_other_controls.sanitize_filename
    (get_other_controls.sanitize_filename (u " Akmola: GRP/2020. "))
  = get_other_controls.sanitize_filename (u " Akmola: GRP/2020. ").
Proof.
  apply (proj2 (sanitize_filename_stable (u " Akmola: GRP/2020. "))).
  vm_compute. lia.
Defined.

(** A name made of dots and spaces only is sanitized to the empty
    name. *)
Theorem sanitize_filename_empty (filename : str) :
  forallb (fun c => bool_decide (c ∈ u ". ")) filename = true ->
  get_other_controls.sanitize_filename filename = [].
Proof.
  intros Hall. unfold get_other_controls.sanitize_filename.
  rewrite replace_all_id.
  - unfold strip_with, lstrip_with.
    rewrite (drop_while_all _ _ Hall). reflexivity.
  - intros c Hc Hin.
    pose proof (proj1 (forallb_forall _ _) Hall c Hin) as Hp.
    apply bool_decide_eq_true_1 in Hp. vm_compute in Hp, Hc.
    apply elem_of_cons in Hp as [-> | Hp];
      [intuition discriminate|].
    apply elem_of_cons in Hp as [-> | Hp];
      [intuition discriminate|].
    inversion Hp.
Qed.

Lemma sanitize_filename_empty_witness :
  get_other_controls.sanitize_filename (u ". . .") = [].
Proof. apply sanitize_filename_empty. reflexivity. Defined.

Lemma sanitize_filename_length_and_characters_witness :
  ~ In 0x2F (get_other_controls.sanitize_filename (u "Akmola/GRP: 2020")).
Proof.
  apply (proj2 (sanitize_filename_length_and_characters
                  (u "Akmola/GRP: 2020"))).
  vm_compute. tauto.
Defined.

(** ** The download loop of [main] *)



(** The only files a call of the controls script can change. *)
Lemma spreadsheet_touched_name (ul : str -> N -> str -> str)
    (w : world) (url base_filename : str) (fs : filesystem) (name : str) :
  name <> base_filename ++ u ".xls" ->
  name <> base_filename ++ u ".xlsx" ->
  snd (get_other_controls.download_file ul w url base_filename fs) !! name
  = fs !! name.
Proof.
  intros Hxls Hxlsx.
  unfold get_other_controls.download_file. rewrite download_file_spec.
  destruct (requests_get w url) as [r|]; [|reflexivity].
  destruct (raise_for_status r); [|reflexivity].
  destruct (body r) as [|first rest]; [reflexivity|].
  destruct (get_other_controls.detect_file_type_from_content first)
    as [sig|] eqn:Hsig; [|reflexivity].
  destruct (body_error r); [reflexivity|]. cbn zeta.
  destruct (spreadsheet_decide_extension first sig
              (get_other_controls.get_file_extension_from_content_type ul
                 (default [] (content_type r))) Hsig) as [-> Hrange].
  destruct (open_error w _); [reflexivity|].
  destruct (first_write_error w _ 0 _) as [[j e]|]; cbn [snd];
    apply lookup_insert_ne; destruct Hrange as [-> | ->]; congruence.
Qed.

Lemma main_loop_frame (ul : str -> N -> str -> str)
    (ws : nat -> world) (rows : list row) (name : str) :
  In 0x2F name \/ In 0x5C name ->
  forall (i : nat) (st : statistics) (fs : filesystem),
    snd (get_other_controls.main_loop ul ws i rows st fs) !! name
    = fs !! name.
Proof.
  intros Hsep. induction rows as [|r rows IH]; intros i st fs;
    [reflexivity|].
  cbn [get_other_controls.main_loop].
  unfold bind at 1. unfold get_other_controls.main_loop_body.
  unfold bind at 1.
  set (base := get_other_controls.sanitize_filename
                 (Oblast r ++ u "_" ++ Type_ r)).
  assert (Hbase : forall ext, In ext [u ".xls"; u ".xlsx"] ->
                              name <> base ++ ext).
  { intros ext Hext ->.
    assert (Hin : In 0x2F (base ++ ext) \/ In 0x5C (base ++ ext))
      by exact Hsep.
    rewrite !in_app_iff in Hin.
    destruct Hin as [[Hin | Hin] | [Hin | Hin]].
    - apply (sanitize_filename_chars _ 0x2F) in Hin; [exact Hin|].
      vm_compute. tauto.
    - vm_compute in Hext. destruct Hext as [<- | [<- | []]];
        vm_compute in Hin; intuition discriminate.
    - apply (sanitize_filename_chars _ 0x5C) in Hin; [exact Hin|].
      vm_compute. tauto.
    - vm_compute in Hext. destruct Hext as [<- | [<- | []]];
        vm_compute in Hin; intuition discriminate. }
  pose proof (spreadsheet_touched_name ul (ws i) (Link r) base fs name
                (Hbase _ (or_introl eq_refl))
                (Hbase _ (or_intror (or_introl eq_refl)))) as Hstep.
  destruct (get_other_controls.download_file ul (ws i) (Link r) base fs)
    as [[out|e] fs1]; cbn [snd] in Hstep; [|exact Hstep].
  destruct (fst out); unfold ret at 1; rewrite IH; exact Hstep.
Qed.

(** The loop of [main] in the controls script writes in the working
    directory only: whatever the cells of the sheet hold, a file whose
    name has a slash or a backslash in it is left as it was. *)
Theorem main_loop_stays_in_directory
    (ul : str -> N -> str -> str) (ws : nat -> world) (rows : list row)
    (fs : filesystem) (name : str) :
  In 0x2F name \/ In 0x5C name ->
  snd (get_other_controls.main_loop ul ws 0 rows
         {| successful_downloads := 0; failed_downloads := 0;
            failed_downloads_list := [] |} fs) !! name
  = fs !! name.
Proof. intros Hsep. apply main_loop_frame. exact Hsep. Qed.

Lemma main_loop_stays_in_directory_witness :
  let r := {| status_code := 200; content_type := None;
              body := [b "region,value"]; body_error := None |} in
  let fs : filesystem := <[u "../Investments/2020.xlsx" := b "kept"]> ∅ in
  snd (get_other_controls.main_loop ascii_table (fun _ => serving r) 0
         [ {| Oblast := u "../Investments/2020"; Type_ := u "";
              Link := u "http://host/a" |} ]
         {| successful_downloads := 0; failed_downloads := 0;
            failed_downloads_list := [] |} fs)
  !! u "../Investments/2020.xlsx" = Some (b "kept").
Proof.
  intros r fs.
  rewrite main_loop_stays_in_directory; [reflexivity|].
  left. vm_compute. tauto.
Defined.
